(** * eGovern residents dashboard: cleaning, binning and statistics

    A shallow embedding of the data-handling core of [streamlit/app.py]:
    [clean_data], the age binning and gender pivot of
    [display_population_pyramid], the correlation and regression calls of
    [display_demographics] and [display_bubble_chart], and
    [interpret_correlation].

    A pandas [DataFrame] is a list of column names together with a list of
    rows; a row is a finite map from column names to cells.  Python floats
    that reach the code are binary64 values; they are embedded as rationals
    extended with the two infinities and NaN, so that comparisons are the
    IEEE ones and the literals of the source are the exact binary64 values
    they denote. *)

From Stdlib Require Import ZArith QArith Qround Qabs String Ascii List Bool Lia.
From Stdlib Require Import DecimalString Lqa.
From stdpp Require Import base option list gmap strings.

Import ListNotations.
Local Open Scope Z_scope.
Local Open Scope string_scope.

(** ** Python floats *)

Module PyFloat.

Inductive float : Type :=
| NaN
| PInf
| NInf
| Fin (q : Q).

(** [x < y] on floats: false as soon as one side is NaN. *)
Definition ltb (x y : float) : bool :=
  match x, y with
  | NaN, _ | _, NaN => false
  | PInf, _ => false
  | _, NInf => false
  | NInf, _ => true
  | _, PInf => true
  | Fin a, Fin b => negb (Qle_bool b a)
  end.

(** [x <= y] on floats. *)
Definition leb (x y : float) : bool :=
  match x, y with
  | NaN, _ | _, NaN => false
  | NInf, _ => true
  | _, PInf => true
  | PInf, _ => false
  | _, NInf => false
  | Fin a, Fin b => Qle_bool a b
  end.

Definition gtb (x y : float) : bool := ltb y x.

Definition isnan (x : float) : bool :=
  match x with NaN => true | _ => false end.

Definition isfinite (x : float) : bool :=
  match x with Fin _ => true | _ => false end.

Definition isinf (x : float) : bool :=
  match x with PInf | NInf => true | _ => false end.

(** Rounding toward zero, as [int(x)] and the float-to-integer cast do. *)
Definition Qtrunc (q : Q) : Z := Z.quot (Qnum q) (Zpos (Qden q)).

Definition of_Z (z : Z) : float := Fin (inject_Z z).

(** The binary64 values denoted by the decimal literals of the source. *)
Definition lit_0_8 : Q := 3602879701896397 # 4503599627370496.
Definition lit_0_5 : Q := 1 # 2.
Definition lit_0_2 : Q := 3602879701896397 # 18014398509481984.

(** [q] is a normal binary64 number with unbiased exponent [e]:
    an integer multiple of [2^(e-52)] lying in [[2^e, 2^(e+1))]. *)
Definition binary64_at (e : Z) (q : Q) : Prop :=
  exists m : Z, 2 ^ 52 <= m < 2 ^ 53 /\ (q == inject_Z m * (2 # 1) ^ (e - 52))%Q.

(** [q] is a binary64 number nearest to the real [r]: within half a unit in
    the last place at exponent [e]. *)
Definition nearest_binary64 (e : Z) (r q : Q) : Prop :=
  binary64_at e q /\ (Qabs (q - r) <= (2 # 1) ^ (e - 53))%Q.

End PyFloat.

Export PyFloat.

(** ** interpret_correlation *)

Inductive evaluation : Type :=
| StrongPositive
| ModeratePositive
| WeakPositive
| NoCorrelation
| WeakNegative
| ModerateNegative
| StrongNegative.

Definition evaluation_string (e : evaluation) : string :=
  match e with
  | StrongPositive => "Strong Positive Correlation"
  | ModeratePositive => "Moderate Positive Correlation"
  | WeakPositive => "Weak Positive Correlation"
  | NoCorrelation => "No Correlation"
  | WeakNegative => "Weak Negative Correlation"
  | ModerateNegative => "Moderate Negative Correlation"
  | StrongNegative => "Strong Negative Correlation"
  end.

Definition f0_8 : float := Fin lit_0_8.
Definition f0_5 : float := Fin lit_0_5.
Definition f0_2 : float := Fin lit_0_2.
Definition fm0_2 : float := Fin (- lit_0_2).
Definition fm0_5 : float := Fin (- lit_0_5).
Definition fm0_8 : float := Fin (- lit_0_8).

(** The chain of [if]/[elif] tests of the source, in order.  A chained
    comparison [a < v <= b] is [a < v and v <= b]. *)
Definition interpret_correlation_class (correlation_value : float) : evaluation :=
  if gtb correlation_value f0_8 then StrongPositive
  else if ltb f0_5 correlation_value && leb correlation_value f0_8 then ModeratePositive
  else if ltb f0_2 correlation_value && leb correlation_value f0_5 then WeakPositive
  else if ltb fm0_2 correlation_value && leb correlation_value f0_2 then NoCorrelation
  else if leb fm0_5 correlation_value && ltb correlation_value fm0_2 then WeakNegative
  else if leb fm0_8 correlation_value && ltb correlation_value fm0_5 then ModerateNegative
  else StrongNegative.

Definition interpret_correlation (correlation_value : float) : string :=
  evaluation_string (interpret_correlation_class correlation_value).

(** The six comparisons of the chain, none of which holds. *)
Definition no_comparison_holds (v : float) : Prop :=
  gtb v f0_8 = false /\
  ltb f0_5 v && leb v f0_8 = false /\
  ltb f0_2 v && leb v f0_5 = false /\
  ltb fm0_2 v && leb v f0_2 = false /\
  leb fm0_5 v && ltb v fm0_2 = false /\
  leb fm0_8 v && ltb v fm0_5 = false.

(** ** Exceptions *)

Inductive exn : Type :=
| KeyError (keys : list string)
| IntCastingNaNError
| ValueError (msg : string)
| TypeError
| OverflowError.

Inductive result (A : Type) : Type :=
| OK (a : A)
| Raise (e : exn).

Arguments OK {A} a.
Arguments Raise {A} e.

#[global] Instance result_ret : MRet result := fun A a => OK a.
#[global] Instance result_bind : MBind result :=
  fun A B f m => match m with OK a => f a | Raise e => Raise e end.

Fixpoint mapM {A B : Type} (f : A -> result B) (l : list A) : result (list B) :=
  match l with
  | [] => OK []
  | x :: l' => y ← f x; ys ← mapM f l'; OK (y :: ys)
  end.

Fixpoint foldM {A B : Type} (f : A -> B -> result A) (l : list B) (a : A) : result A :=
  match l with
  | [] => OK a
  | x :: l' => a' ← f a x; foldM f l' a'
  end.

(** ** The pandas fragment used by the program *)

Module Pandas.

Record Timestamp : Type := mkTimestamp { ts_year : Z; ts_month : Z; ts_day : Z }.

(** A cell of a table.  A missing value is the float NaN (in a column read
    from a file) or [NaT] (in a datetime column). *)
Inductive cell : Type :=
| Str (s : string)
| Num (x : float)
| Date (t : Timestamp)
| NaT.

Definition isna (c : cell) : bool :=
  match c with
  | Num NaN => true
  | NaT => true
  | _ => false
  end.

Definition notna (c : cell) : bool := negb (isna c).

Record DataFrame : Type := mkDataFrame {
  columns : list string;
  rows : list (gmap string cell)
}.

Definition row_get (r : gmap string cell) (c : string) : cell :=
  default (Num NaN) (r !! c).

Definition has_column (c : string) (df : DataFrame) : bool :=
  bool_decide (c ∈ columns df).

(** [df.empty]: no rows or no columns. *)
Definition empty (df : DataFrame) : bool :=
  match rows df, columns df with
  | [], _ | _, [] => true
  | _, _ => false
  end.

(** [df[field]]: the column as a Series. *)
Definition getitem (field : string) (df : DataFrame) : result (list cell) :=
  if has_column field df then OK (map (fun r => row_get r field) (rows df))
  else Raise (KeyError [field]).

Fixpoint assign (field : string) (rs : list (gmap string cell)) (s : list cell)
  : list (gmap string cell) :=
  match rs, s with
  | r :: rs', v :: s' => <[field := v]> r :: assign field rs' s'
  | _, _ => []
  end.

(** [df[field] = s]: replaces the column, or appends it when it is new. *)
Definition setitem (field : string) (s : list cell) (df : DataFrame) : DataFrame :=
  {| columns := if has_column field df then columns df else (columns df ++ [field])%list;
     rows := assign field (rows df) s |}.

Definition missing_columns (subset : list string) (df : DataFrame) : list string :=
  List.filter (fun c => negb (has_column c df)) subset.

Definition complete_on (subset : list string) (r : gmap string cell) : bool :=
  forallb (fun c => notna (row_get r c)) subset.

(** [df.dropna(subset=...)]: a [KeyError] names the columns of [subset] that
    the frame lacks; otherwise the rows with a missing value in one of the
    [subset] columns are removed. *)
Definition dropna (subset : list string) (df : DataFrame) : result DataFrame :=
  match missing_columns subset df with
  | [] => OK {| columns := columns df;
                rows := List.filter (complete_on subset) (rows df) |}
  | missing => Raise (KeyError missing)
  end.

(** [s.fillna(value)] *)
Definition fillna (value : cell) (s : list cell) : list cell :=
  map (fun c => if isna c then value else c) s.

(** [s.dropna()] on a Series. *)
Definition series_dropna (s : list cell) : list cell := List.filter notna s.

Section Parsers.

(** What pandas' parsers make of a string, and of a number taken as a
    count of nanoseconds since the epoch; [None] is a value that does not
    parse. *)
Variable parse_numeric : string -> option float.
Variable parse_datetime : string -> option Timestamp.
Variable datetime_of_number : float -> option Timestamp.

Definition to_numeric_scalar (c : cell) : float :=
  match c with
  | Num x => x
  | Str s => default NaN (parse_numeric s)
  | Date _ => NaN
  | NaT => NaN
  end.

(** [pd.to_numeric(s, errors='coerce')] *)
Definition to_numeric (s : list cell) : list float := map to_numeric_scalar s.

Definition to_datetime_scalar (c : cell) : cell :=
  match c with
  | Date t => Date t
  | NaT => NaT
  | Num NaN => NaT
  | Num x => from_option Date NaT (datetime_of_number x)
  | Str s => from_option Date NaT (parse_datetime s)
  end.

(** [pd.to_datetime(s, errors='coerce')] *)
Definition to_datetime (s : list cell) : list cell := map to_datetime_scalar s.

End Parsers.

(** [s.fillna(0)] on a float Series. *)
Definition fillna_float (value : float) (s : list float) : list float :=
  map (fun x => if isnan x then value else x) s.

Definition int64_min : Z := - 2 ^ 63.
Definition int64_max : Z := 2 ^ 63 - 1.

(** The float-to-int64 cast of numpy on x86-64: truncation toward zero; a
    value outside the int64 range yields the smallest int64. *)
Definition cast_int64 (q : Q) : Z :=
  let z := Qtrunc q in
  if ((int64_min <=? z) && (z <=? int64_max))%Z then z else int64_min.

Definition astype_int_scalar (x : float) : result Z :=
  match x with
  | Fin q => OK (cast_int64 q)
  | _ => Raise IntCastingNaNError
  end.

(** [s.astype(int)] on a float Series: pandas refuses NaN and the
    infinities. *)
Definition astype_int (s : list float) : result (list Z) := mapM astype_int_scalar s.

Definition dt_year_scalar (c : cell) : option Z :=
  match c with
  | Date t => Some (ts_year t)
  | _ => None
  end.

(** [s.dt.year] on a datetime Series: the year, missing for [NaT]. *)
Definition dt_year (s : list cell) : list (option Z) := map dt_year_scalar s.

(** [n - s] for an integer [n] and a Series of years. *)
Definition rsub (n : Z) (s : list (option Z)) : list cell :=
  map (fun y => match y with Some y => Num (of_Z (n - y)) | None => Num NaN end) s.

End Pandas.

Export Pandas.

(** ** clean_data *)

Definition essential_fields : list string :=
  ["gender"; "birthdate"; "civilStatus"; "employmentStatus"; "avgMonthlyIncome"].

Definition categorical_fields : list string :=
  ["occupation"; "educationalAttainment"; "relationToHead"; "sectorCode"; "ethnicity"].

(** The columns that [clean_data] reads. *)
Definition required_columns : list string :=
  (essential_fields ++ categorical_fields ++ ["householdNum"])%list.

Section Cleaner.

Variable parse_numeric : string -> option float.
Variable parse_datetime : string -> option Timestamp.
Variable datetime_of_number : float -> option Timestamp.

(** [pd.to_datetime('today').year], read once per call. *)
Variable current_year : Z.

Definition fill_unknown (data : DataFrame) (field : string) : result DataFrame :=
  s ← getitem field data;
  OK (setitem field (fillna (Str "Unknown") s) data).

Definition clean_data (data : DataFrame) : result DataFrame :=
  data ← dropna essential_fields data;
  data ← foldM fill_unknown categorical_fields data;
  s ← getitem "avgMonthlyIncome" data;
  let data := setitem "avgMonthlyIncome" (map Num (to_numeric parse_numeric s)) data in
  s ← getitem "householdNum" data;
  h ← astype_int (fillna_float (of_Z 0) (to_numeric parse_numeric s));
  let data := setitem "householdNum" (map (fun z => Num (of_Z z)) h) data in
  s ← getitem "birthdate" data;
  let data := setitem "birthdate" (to_datetime parse_datetime datetime_of_number s) data in
  s ← getitem "birthdate" data;
  let data := setitem "age" (rsub current_year (dt_year s)) data in
  dropna ["birthdate"; "age"] data.

(** *** The same function read row by row

    Every step of [clean_data] acts on each row separately; these are the
    steps on one row, and [clean_rows] is the table they produce when no
    step raises. *)

Definition fill_value (c : cell) : cell := if isna c then Str "Unknown" else c.

Definition fill_row (field : string) (r : gmap string cell) : gmap string cell :=
  <[field := fill_value (row_get r field)]> r.

Definition income_row (r : gmap string cell) : gmap string cell :=
  <["avgMonthlyIncome" :=
      Num (to_numeric_scalar parse_numeric (row_get r "avgMonthlyIncome"))]> r.

Definition household_float (r : gmap string cell) : float :=
  let x := to_numeric_scalar parse_numeric (row_get r "householdNum") in
  if isnan x then of_Z 0 else x.

Definition household_int (r : gmap string cell) : result Z :=
  astype_int_scalar (household_float r).

Definition household_num (r : gmap string cell) : Z :=
  match household_int r with OK z => z | Raise _ => 0 end.

Definition household_row (r : gmap string cell) : gmap string cell :=
  <["householdNum" := Num (of_Z (household_num r))]> r.

Definition birthdate_row (r : gmap string cell) : gmap string cell :=
  <["birthdate" :=
      to_datetime_scalar parse_datetime datetime_of_number (row_get r "birthdate")]> r.

Definition age_cell (birthdate : cell) : cell :=
  match dt_year_scalar birthdate with
  | Some y => Num (of_Z (current_year - y))
  | None => Num NaN
  end.

Definition age_row (r : gmap string cell) : gmap string cell :=
  <["age" := age_cell (row_get r "birthdate")]> r.

Definition clean_row (r : gmap string cell) : gmap string cell :=
  age_row (birthdate_row (household_row (income_row
    (fold_left (fun r f => fill_row f r) categorical_fields r)))).

Definition cleaned_columns (data : DataFrame) : list string :=
  if has_column "age" data then columns data else (columns data ++ ["age"])%list.

Definition clean_rows (data : DataFrame) : DataFrame :=
  {| columns := cleaned_columns data;
     rows := List.filter (complete_on ["birthdate"; "age"])
               (map clean_row (List.filter (complete_on essential_fields) (rows data))) |}.

End Cleaner.

(** ** Concrete parsers for the examples

    The universal statements below hold for every parser.  The examples
    run the code on concrete tables and use these: plain decimal numbers
    (sign, digits, an optional fraction), ISO [YYYY-MM-DD] dates, and
    nanoseconds since 1970-01-01 for numbers given as dates. *)

Module Parsers.

Definition digit_of (a : ascii) : option Z :=
  let n := Z.of_N (N_of_ascii a) in
  if ((48 <=? n) && (n <=? 57))%Z then Some (n - 48) else None.

Fixpoint decimal_digits (s : string) (acc : Z) (scale : positive) (frac seen : bool)
  : option Q :=
  match s with
  | EmptyString => if seen then Some (acc # scale) else None
  | String a s' =>
      if Ascii.eqb a "."
      then (if frac then None else decimal_digits s' acc scale true seen)
      else match digit_of a with
           | Some d =>
               decimal_digits s' (10 * acc + d) (if frac then 10 * scale else scale)%positive
                 frac true
           | None => None
           end
  end.

Definition parse_decimal (s : string) : option float :=
  match s with
  | String a s' =>
      if Ascii.eqb a "-" then (fun q : Q => Fin (- q)) <$> decimal_digits s' 0 1 false false
      else if Ascii.eqb a "+" then Fin <$> decimal_digits s' 0 1 false false
      else Fin <$> decimal_digits s 0 1 false false
  | EmptyString => None
  end.

Definition is_leap (y : Z) : bool :=
  ((y mod 4 =? 0) && (negb (y mod 100 =? 0) || (y mod 400 =? 0)))%Z.

Definition days_in_month (y m : Z) : Z :=
  if (m =? 2)%Z then (if is_leap y then 29 else 28)
  else if ((m =? 4) || (m =? 6) || (m =? 9) || (m =? 11))%Z then 30
  else 31.

Definition valid_date (y m d : Z) : bool :=
  ((1 <=? m) && (m <=? 12) && (1 <=? d) && (d <=? days_in_month y m))%Z.

Definition parse_iso_date (s : string) : option Timestamp :=
  match s with
  | String y1 (String y2 (String y3 (String y4 (String sep1
      (String m1 (String m2 (String sep2 (String d1 (String d2 EmptyString))))))))) =>
      if Ascii.eqb sep1 "-" && Ascii.eqb sep2 "-" then
        a ← digit_of y1; b ← digit_of y2; c ← digit_of y3; d ← digit_of y4;
        e ← digit_of m1; f ← digit_of m2; g ← digit_of d1; h ← digit_of d2;
        let y := 1000 * a + 100 * b + 10 * c + d in
        let m := 10 * e + f in
        let dd := 10 * g + h in
        if valid_date y m dd then Some (mkTimestamp y m dd) else None
      else None
  | _ => None
  end.

(** The civil date of a day number counted from 1970-01-01. *)
Definition civil_from_days (days : Z) : Timestamp :=
  let z := days + 719468 in
  let era := z / 146097 in
  let doe := z - era * 146097 in
  let yoe := (doe - doe / 1460 + doe / 36524 - doe / 146096) / 365 in
  let doy := doe - (365 * yoe + yoe / 4 - yoe / 100) in
  let mp := (5 * doy + 2) / 153 in
  let d := doy - (153 * mp + 2) / 5 + 1 in
  let m := if (mp <? 10)%Z then mp + 3 else mp - 9 in
  mkTimestamp (yoe + era * 400 + (if (m <=? 2)%Z then 1 else 0)) m d.

Definition epoch_nanoseconds (x : float) : option Timestamp :=
  match x with
  | Fin q =>
      let ns := Qfloor q in
      if ((int64_min <? ns) && (ns <=? int64_max))%Z
      then Some (civil_from_days (ns / 86400000000000))
      else None
  | _ => None
  end.

End Parsers.

Definition clean := clean_data Parsers.parse_decimal Parsers.parse_iso_date Parsers.epoch_nanoseconds.

Definition mkrow (l : list (string * cell)) : gmap string cell := list_to_map l.

(** ** Binning and the gender pivot of display_population_pyramid *)

Module Pyramid.

(** [range(start, stop, step)] for a positive [step]. *)
Definition py_range (start stop step : Z) : list Z :=
  map (fun i => start + step * Z.of_nat i)
      (seq 0 (Z.to_nat ((stop - start + step - 1) / step))).

(** [str(i)] for an integer. *)
Definition str (i : Z) : string := DecimalString.NilZero.string_of_int (Z.to_int i).

(** [f"{i}-{i + 9}"] *)
Definition bin_label (i : Z) : string := str i ++ "-" ++ str (i + 9).

(** The values of a numeric column; text and dates have no order with
    numbers, and [min] fails on them. *)
Definition as_float (c : cell) : result float :=
  match c with
  | Num x => OK x
  | _ => Raise TypeError
  end.

Definition fmin (x y : float) : float := if ltb y x then y else x.
Definition fmax (x y : float) : float := if ltb x y then y else x.

Definition skipna (s : list float) : list float :=
  List.filter (fun x => negb (isnan x)) s.

(** [s.min()] and [s.max()]: missing values are skipped. *)
Definition series_min (s : list float) : float :=
  match skipna s with
  | [] => NaN
  | x :: l => fold_left fmin l x
  end.

Definition series_max (s : list float) : float :=
  match skipna s with
  | [] => NaN
  | x :: l => fold_left fmax l x
  end.

(** [int(x)] on a float. *)
Definition int (x : float) : result Z :=
  match x with
  | Fin q => OK (Qtrunc q)
  | NaN => Raise (ValueError "cannot convert float NaN to integer")
  | _ => Raise OverflowError
  end.

(** [bins.searchsorted(x, side='right')] on increasing [bins]: the number of
    edges that are at most [x]. *)
Definition searchsorted_right (bins : list Z) (x : float) : nat :=
  length (List.filter (fun e => leb (of_Z e) x) bins).

Definition cut_scalar (bins : list Z) (labels : list string) (x : float) : option string :=
  let ids := searchsorted_right bins x in
  if isnan x || (ids =? length bins)%nat || (ids =? 0)%nat then None
  else nth_error labels (ids - 1).

(** [pd.cut(s, bins=bins, right=False, labels=labels)] *)
Definition cut (s : list float) (bins : list Z) (labels : list string)
  : result (list (option string)) :=
  if (Z.of_nat (length labels) =? Z.of_nat (length bins) - 1)%Z
  then OK (map (cut_scalar bins labels) s)
  else Raise (ValueError "Bin labels must be one fewer than the number of bin edges").

Definition timestamp_eqb (t u : Timestamp) : bool :=
  ((ts_year t =? ts_year u) && (ts_month t =? ts_month u) && (ts_day t =? ts_day u))%Z.

Definition float_eqb (x y : float) : bool :=
  match x, y with
  | PInf, PInf | NInf, NInf => true
  | Fin a, Fin b => Qeq_bool a b
  | _, _ => false
  end.

(** Equality of group keys. *)
Definition cell_eqb (c d : cell) : bool :=
  match c, d with
  | Str a, Str b => String.eqb a b
  | Num x, Num y => float_eqb x y
  | Date t, Date u => timestamp_eqb t u
  | _, _ => false
  end.

Fixpoint unique (l : list cell) : list cell :=
  match l with
  | [] => []
  | x :: l' => x :: List.filter (fun y => negb (cell_eqb x y)) (unique l')
  end.

(** The rows that enter a group: both keys present. *)
Fixpoint keyed (age_group : list (option string)) (gender : list cell)
  : list (string * cell) :=
  match age_group, gender with
  | a :: ag, g :: gs =>
      match a with
      | Some l => if notna g then (l, g) :: keyed ag gs else keyed ag gs
      | None => keyed ag gs
      end
  | _, _ => []
  end.

Definition group_size (pairs : list (string * cell)) (k : string * cell) : Z :=
  Z.of_nat (length (List.filter
    (fun p => String.eqb (fst p) (fst k) && cell_eqb (snd p) (snd k)) pairs)).

Definition product (ls : list string) (gs : list cell) : list (string * cell) :=
  flat_map (fun l => map (fun g => (l, g)) gs) ls.

(** [groupby(['age_group', 'gender']).size().reset_index(name='count')]
    where [age_group] is categorical with categories [labels].  With
    [observed = false] (the default up to pandas 2) every category is
    paired with every gender present and unseen pairs count 0; with
    [observed = true] only the pairs seen are listed.  The genders are
    listed in order of first appearance: pandas sorts them, which only
    permutes the columns that the selection by name below picks from. *)
Definition groupby_size (observed : bool) (labels : list string)
    (age_group : list (option string)) (gender : list cell)
  : list (string * cell * Z) :=
  let pairs := keyed age_group gender in
  let levels := unique (List.filter notna gender) in
  let all := map (fun k => (k, group_size pairs k)) (product labels levels) in
  if observed then List.filter (fun kc => (0 <? snd kc)%Z) all else all.

(** A wide table: its index, its column keys and, per index entry, the
    values under the columns. *)
Record Wide : Type := mkWide {
  index : list string;
  wcolumns : list cell;
  wvalues : list (list float)
}.

Fixpoint unique_labels (l : list string) : list string :=
  match l with
  | [] => []
  | x :: l' => x :: List.filter (fun y => negb (String.eqb x y)) (unique_labels l')
  end.

Definition long_lookup (long : list (string * cell * Z)) (l : string) (g : cell) : float :=
  match List.find (fun kc => String.eqb (fst (fst kc)) l && cell_eqb (snd (fst kc)) g) long with
  | Some kc => of_Z (snd kc)
  | None => NaN
  end.

(** The count of the pair [(l, g)] in the long table, 0 when the pair is not
    listed: the value of the pivot at row [l] and column [g] once
    [fillna(0)] is applied. *)
Definition pivot_value (long : list (string * cell * Z)) (l : string) (g : cell) : float :=
  let x := long_lookup long l g in if isnan x then of_Z 0 else x.

(** [long.pivot(index='age_group', columns='gender', values='count')] *)
Definition pivot (long : list (string * cell * Z)) : Wide :=
  let idx := unique_labels (map (fun kc => fst (fst kc)) long) in
  let cols := unique (map (fun kc => snd (fst kc)) long) in
  {| index := idx;
     wcolumns := cols;
     wvalues := map (fun l => map (long_lookup long l) cols) idx |}.

(** [wide.fillna(0)] *)
Definition wide_fillna (value : float) (w : Wide) : Wide :=
  {| index := index w;
     wcolumns := wcolumns w;
     wvalues := map (fillna_float value) (wvalues w) |}.

Definition wide_has (key : cell) (w : Wide) : bool := existsb (cell_eqb key) (wcolumns w).

(** [wide[key] = value] for a new column. *)
Definition wide_append (key : cell) (value : float) (w : Wide) : Wide :=
  {| index := index w;
     wcolumns := (wcolumns w ++ [key])%list;
     wvalues := map (fun vs : list float => (vs ++ [value])%list) (wvalues w) |}.

Definition wide_get (cols : list cell) (vs : list float) (key : cell) : float :=
  match List.find (fun kv => cell_eqb (fst kv) key) (combine cols vs) with
  | Some kv => snd kv
  | None => NaN
  end.

(** [wide[['Male', 'Female']].reset_index()] *)
Definition select_male_female (w : Wide) : result DataFrame :=
  match List.filter (fun k => negb (wide_has (Str k) w)) ["Male"; "Female"] with
  | [] =>
      OK {| columns := ["age_group"; "Male"; "Female"];
            rows := map (fun lv =>
                      mkrow [("age_group", Str (fst lv));
                             ("Male", Num (wide_get (wcolumns w) (snd lv) (Str "Male")));
                             ("Female", Num (wide_get (wcolumns w) (snd lv) (Str "Female")))])
                      (combine (index w) (wvalues w)) |}
  | missing => Raise (KeyError missing)
  end.

Definition all_na (s : list cell) : bool := forallb isna s.

(** Lines 287 to 305: the age groups of the rows, with the labels of the
    buckets; [None] when the function stops with its warning. *)
Definition age_groups (data : DataFrame)
  : result (option (list string * list (option string) * list cell)) :=
  if empty data then OK None else
  age_col ← getitem "age" data;
  if all_na age_col then OK None else
  gender_col ← getitem "gender" data;
  if all_na gender_col then OK None else
  ages ← mapM as_float age_col;
  age_min ← int (series_min ages);
  age_max ← int (series_max ages);
  let age_bins := py_range age_min (age_max + 10) 10 in
  let labels := map bin_label (py_range age_min age_max 10) in
  age_group ← cut ages age_bins labels;
  OK (Some (labels, age_group, gender_col)).

(** Lines 305 to 320: the counts per age group and gender, pivoted, with
    the two gender columns made present and selected in this order. *)
Definition pyramid_pivot (observed : bool) (data : DataFrame) : result (option DataFrame) :=
  binned ← age_groups data;
  match binned with
  | None => OK None
  | Some (labels, age_group, gender_col) =>
      let long := groupby_size observed labels age_group gender_col in
      match long with
      | [] => OK None
      | _ =>
          let w := wide_fillna (of_Z 0) (pivot long) in
          let w := if negb (wide_has (Str "Male") w) then wide_append (Str "Male") (of_Z 0) w else w in
          let w := if negb (wide_has (Str "Female") w) then wide_append (Str "Female") (of_Z 0) w else w in
          df ← select_male_female w;
          OK (Some df)
      end
  end.

End Pyramid.

Export Pyramid.

(** ** scipy.stats.pearsonr and scipy.stats.linregress

    The two library functions, with their argument checks in the order
    scipy makes them and their arithmetic carried out exactly over the
    rationals.  A correlation coefficient is a quotient by a square root; it
    is kept as the pair of its numerator and of the square of its
    denominator. *)

Module Stats.

Inductive rvalue : Type :=
| RNaN
| RRoot (num den_sq : Q).

(** [r ** 2] *)
Definition rsquare (r : rvalue) : float :=
  match r with
  | RNaN => NaN
  | RRoot num den_sq => Fin (num * num / den_sq)
  end.

(** [-1 <= r <= 1] for [r = num / sqrt den_sq]. *)
Definition in_unit_interval (r : rvalue) : Prop :=
  match r with
  | RNaN => False
  | RRoot num den_sq => (0 < den_sq /\ num * num <= den_sq)%Q
  end.

Fixpoint finite_values (s : list float) : option (list Q) :=
  match s with
  | [] => Some []
  | Fin q :: s' => cons q <$> finite_values s'
  | _ :: _ => None
  end.

Definition qsum (l : list Q) : Q := fold_right Qplus 0%Q l.

Definition mean (l : list Q) : Q := (qsum l / inject_Z (Z.of_nat (length l)))%Q.

(** The sum of the products of the deviations from the means. *)
Definition codeviation (x y : list Q) : Q :=
  qsum (map (fun p => ((fst p - mean x) * (snd p - mean y))%Q) (combine x y)).

(** [(s == s[0]).all()] *)
Definition constant (s : list Q) : bool :=
  match s with
  | [] => true
  | q :: _ => forallb (Qeq_bool q) s
  end.

Definition pearsonr (x y : list float) : result rvalue :=
  if negb (length x =? length y)%nat
  then Raise (ValueError "x and y must have the same length.")
  else if (length x <? 2)%nat
  then Raise (ValueError "x and y must have length at least 2.")
  else match finite_values x, finite_values y with
       | Some xs, Some ys =>
           if constant xs || constant ys then OK RNaN
           else OK (RRoot (codeviation xs ys) (codeviation xs xs * codeviation ys ys))
       | _, _ => OK RNaN
       end.

Record LinregressResult : Type := mkLinregress {
  slope : float;
  intercept : float;
  r_value : rvalue
}.

(** The quotient of two finite floats. *)
Definition fdiv (a b : Q) : float :=
  if Qeq_bool b 0 then
    (if Qeq_bool a 0 then NaN else if Qle_bool 0 a then PInf else NInf)
  else Fin (a / b).

(** [a - s * b] for finite [a] and [b]. *)
Definition fsubmul (a : Q) (s : float) (b : Q) : float :=
  match s with
  | Fin q => Fin (a - q * b)
  | NaN => NaN
  | PInf => if Qeq_bool b 0 then NaN else if Qle_bool 0 b then NInf else PInf
  | NInf => if Qeq_bool b 0 then NaN else if Qle_bool 0 b then PInf else NInf
  end.

(** [np.amax] and [np.amin]: a NaN in the array is the result. *)
Definition amax (s : list float) : float := if existsb isnan s then NaN else series_max s.
Definition amin (s : list float) : float := if existsb isnan s then NaN else series_min s.

Definition linregress (x y : list float) : result LinregressResult :=
  match x, y with
  | [], _ | _, [] => Raise (ValueError "Inputs must not be empty.")
  | _, _ =>
      if float_eqb (amax x) (amin x) && (1 <? length x)%nat
      then Raise (ValueError
             "Cannot calculate a linear regression if all x values are identical")
      else if negb (length x =? length y)%nat
      then Raise (ValueError "all the input array dimensions must match exactly")
      else match finite_values x, finite_values y with
           | Some xs, Some ys =>
               let n := inject_Z (Z.of_nat (length xs)) in
               let ssxm := (codeviation xs xs / n)%Q in
               let ssxym := (codeviation xs ys / n)%Q in
               let ssym := (codeviation ys ys / n)%Q in
               let r := if Qeq_bool ssxm 0 || Qeq_bool ssym 0 then RRoot 0 1
                        else RRoot ssxym (ssxm * ssym) in
               let slope := fdiv ssxym ssxm in
               OK (mkLinregress slope (fsubmul (mean ys) slope (mean xs)) r)
           | _, _ => OK (mkLinregress NaN NaN RNaN)
           end
  end.

End Stats.

Export Stats.

(** ** display_demographics and display_bubble_chart *)

(** [df[cols]]: the frame restricted to [cols]. *)
Definition select (cols : list string) (df : DataFrame) : result DataFrame :=
  match missing_columns cols df with
  | [] => OK {| columns := cols;
                rows := map (fun r => mkrow (map (fun c => (c, row_get r c)) cols)) (rows df) |}
  | missing => Raise (KeyError missing)
  end.

(** Lines 371 and 372: the coefficient over the rows where both values are
    present. *)
Definition demographics_correlation (data : DataFrame) : result rvalue :=
  pair ← select ["age"; "avgMonthlyIncome"] data;
  clean_data ← dropna ["age"; "avgMonthlyIncome"] pair;
  age ← getitem "age" clean_data;
  income ← getitem "avgMonthlyIncome" clean_data;
  x ← mapM as_float age;
  y ← mapM as_float income;
  pearsonr x y.

(** Line 378: each column loses its own missing values before the fit. *)
Definition demographics_regression (data : DataFrame) : result LinregressResult :=
  age ← getitem "age" data;
  income ← getitem "avgMonthlyIncome" data;
  x ← mapM as_float (series_dropna age);
  y ← mapM as_float (series_dropna income);
  linregress x y.

Definition display_demographics (data : DataFrame) : result (rvalue * LinregressResult) :=
  correlation ← demographics_correlation data;
  fit ← demographics_regression data;
  OK (correlation, fit).

(** The regression as the specification words it: ordinary least squares
    over the rows where both values are present, kept aligned. *)
Definition spec_linearRegression (data : DataFrame) : result LinregressResult :=
  pair ← select ["age"; "avgMonthlyIncome"] data;
  paired ← dropna ["age"; "avgMonthlyIncome"] pair;
  age ← getitem "age" paired;
  income ← getitem "avgMonthlyIncome" paired;
  x ← mapM as_float age;
  y ← mapM as_float income;
  linregress x y.

Definition triple_eqb (a b : cell * cell * cell) : bool :=
  cell_eqb (fst (fst a)) (fst (fst b)) && cell_eqb (snd (fst a)) (snd (fst b))
  && cell_eqb (snd a) (snd b).

Fixpoint unique_triples (l : list (cell * cell * cell)) : list (cell * cell * cell) :=
  match l with
  | [] => []
  | t :: l' => t :: List.filter (fun u => negb (triple_eqb t u)) (unique_triples l')
  end.

(** Line 215: [data.groupby([x, y, category]).size()], its keys only: the
    distinct triples with no missing component. *)
Definition bubble_groups (selected_x selected_y selected_category : string)
    (data : DataFrame) : result (list (cell * cell * cell)) :=
  x ← getitem selected_x data;
  y ← getitem selected_y data;
  c ← getitem selected_category data;
  OK (unique_triples
        (List.filter (fun t => notna (fst (fst t)) && notna (snd (fst t)) && notna (snd t))
           (combine (combine x y) c))).

(** Lines 260 to 263: the coefficient is computed only when both grouped
    columns take more than one value. *)
Definition bubble_correlation (selected_x selected_y selected_category : string)
    (data : DataFrame) : result (option rvalue) :=
  group_data ← bubble_groups selected_x selected_y selected_category data;
  let gx := map (fun t => fst (fst t)) group_data in
  let gy := map (fun t => snd (fst t)) group_data in
  if (1 <? length (unique gx))%nat && (1 <? length (unique gy))%nat then
    x ← mapM as_float gx;
    y ← mapM as_float gy;
    correlation ← pearsonr x y;
    OK (Some correlation)
  else OK None.

(** ** Example tables *)

Module Examples.

Definition csv_columns : list string :=
  ["gender"; "birthdate"; "civilStatus"; "employmentStatus"; "avgMonthlyIncome";
   "householdNum"; "occupation"; "educationalAttainment"; "relationToHead";
   "sectorCode"; "ethnicity"].

(** A raw row: single, employed, a college graduate, the other optional
    fields left empty in the file. *)
Definition resident (gender birthdate avgMonthlyIncome householdNum : cell)
  : gmap string cell :=
  mkrow [("gender", gender); ("birthdate", birthdate); ("civilStatus", Str "Single");
         ("employmentStatus", Str "Employed"); ("avgMonthlyIncome", avgMonthlyIncome);
         ("householdNum", householdNum); ("occupation", Num NaN);
         ("educationalAttainment", Str "College"); ("relationToHead", Num NaN);
         ("sectorCode", Num NaN); ("ethnicity", Num NaN)].

(** One resident whose income is not a number. *)
Definition text_income : DataFrame :=
  mkDataFrame csv_columns
    [resident (Str "Male") (Str "2000-01-01") (Str "abc") (Num (of_Z 4))].

(** One resident whose household number is negative. *)
Definition negative_household : DataFrame :=
  mkDataFrame csv_columns
    [resident (Str "Female") (Str "1990-01-01") (Num (of_Z 15000)) (Num (of_Z (-3)))].

(** Three residents: the second has no household number and a fractional
    income, the third a birthdate that is no date. *)
Definition three_residents : DataFrame :=
  mkDataFrame csv_columns
    [resident (Str "Male") (Str "2000-01-01") (Str "15000") (Str "4.7");
     resident (Str "Female") (Str "1990-01-01") (Str "20000.50") (Num NaN);
     resident (Str "Male") (Str "yesterday") (Str "100") (Str "many")].

(** A table with no column that [clean_data] knows. *)
Definition foreign_table : DataFrame :=
  mkDataFrame ["name"; "street"] [mkrow [("name", Str "A"); ("street", Str "B")]].

Definition person (age : float) (gender : string) (avgMonthlyIncome : float)
  : gmap string cell :=
  mkrow [("age", Num age); ("gender", Str gender); ("avgMonthlyIncome", Num avgMonthlyIncome)].

Definition people (l : list (float * string * float)) : DataFrame :=
  mkDataFrame ["age"; "gender"; "avgMonthlyIncome"]
    (map (fun p => person (fst (fst p)) (snd (fst p)) (snd p)) l).

(** Ages 5, 15 and 25. *)
Definition ages_5_15_25 : DataFrame :=
  people [(of_Z 5, "Male", of_Z 100); (of_Z 15, "Female", of_Z 200);
          (of_Z 25, "Male", of_Z 300)].

(** Ages 5, 15 and 27, all men. *)
Definition men_5_15_27 : DataFrame :=
  people [(of_Z 5, "Male", of_Z 100); (of_Z 15, "Male", of_Z 200);
          (of_Z 27, "Male", of_Z 300)].

(** Three cleaned rows, the income of the second missing; the two complete
    rows lie on [y = 2x + 3]. *)
Definition missing_income : DataFrame :=
  people [(of_Z 20, "Male", of_Z 43); (of_Z 30, "Female", NaN); (of_Z 40, "Male", of_Z 83)].

(** Three raw residents born in 2004, 1994 and 1984; the income of the
    second is no number. *)
Definition text_income_among : DataFrame :=
  mkDataFrame csv_columns
    [resident (Str "Male") (Str "2004-05-01") (Str "43") (Num (of_Z 1));
     resident (Str "Female") (Str "1994-05-01") (Str "15k") (Num (of_Z 2));
     resident (Str "Male") (Str "1984-05-01") (Str "83") (Num (of_Z 3))].

(** A single row, as a filter may leave. *)
Definition one_person : DataFrame := people [(of_Z 20, "Male", of_Z 43)].

End Examples.

(** ** More of clean_data, read row by row *)

(** The columns that [clean_data] writes. *)
Definition written_columns : list string :=
  (categorical_fields ++ ["avgMonthlyIncome"; "householdNum"; "birthdate"; "age"])%list.

Definition is_date (c : cell) : bool :=
  match c with Date _ => true | _ => false end.

Section Survival.

Variable parse_datetime : string -> option Timestamp.
Variable datetime_of_number : float -> option Timestamp.

(** The two [dropna] calls together: the essential fields are present and
    the birthdate converts to a date. *)
Definition survives (r : gmap string cell) : bool :=
  complete_on essential_fields r
  && is_date (to_datetime_scalar parse_datetime datetime_of_number (row_get r "birthdate")).

End Survival.

(** ** Tables with a household number that is no finite number *)

Module Households.

(** One resident whose household number is infinite, as a file field [inf]
    is read. *)
Definition infinite_household : DataFrame :=
  mkDataFrame Examples.csv_columns
    [Examples.resident (Str "Female") (Str "1990-01-01") (Num (of_Z 15000)) (Num PInf)].

(** One resident whose household number is text. *)
Definition text_household : DataFrame :=
  mkDataFrame Examples.csv_columns
    [Examples.resident (Str "Female") (Str "1990-01-01") (Num (of_Z 15000)) (Str "many")].

End Households.

(** A cell of a numeric column. *)
Definition is_num (c : cell) : bool := match c with Num _ => true | _ => false end.

(** * Properties *)

(** ** Floats and the literals *)

Lemma lit_0_8_nearest : nearest_binary64 (-1) (8 # 10) lit_0_8.
Proof.
  split.
  - exists 7205759403792794. split; [lia | reflexivity].
  - vm_compute. discriminate.
Qed.

Lemma lit_0_5_nearest : nearest_binary64 (-1) (5 # 10) lit_0_5.
Proof.
  split.
  - exists 4503599627370496. split; [lia | reflexivity].
  - vm_compute. discriminate.
Qed.

Lemma lit_0_2_nearest : nearest_binary64 (-3) (2 # 10) lit_0_2.
Proof.
  split.
  - exists 7205759403792794. split; [lia | reflexivity].
  - vm_compute. discriminate.
Qed.

Lemma ltb_Fin (a b : Q) : ltb (Fin a) (Fin b) = true <-> (a < b)%Q.
Proof.
  simpl. rewrite negb_true_iff. split.
  - intros H. apply Qnot_le_lt. intros Hle. apply Qle_bool_iff in Hle. congruence.
  - intros H. destruct (Qle_bool b a) eqn:E; [|reflexivity].
    apply Qle_bool_iff in E. lra.
Qed.

Lemma ltb_Fin_false (a b : Q) : ltb (Fin a) (Fin b) = false <-> (b <= a)%Q.
Proof.
  simpl. rewrite negb_false_iff. apply Qle_bool_iff.
Qed.

Lemma leb_Fin (a b : Q) : leb (Fin a) (Fin b) = true <-> (a <= b)%Q.
Proof. simpl. apply Qle_bool_iff. Qed.

Lemma leb_Fin_false (a b : Q) : leb (Fin a) (Fin b) = false <-> (b < a)%Q.
Proof.
  split.
  - intros H. apply Qnot_le_lt. intros Hle. apply leb_Fin in Hle. congruence.
  - intros H. destruct (leb (Fin a) (Fin b)) eqn:E; [|reflexivity].
    apply leb_Fin in E. lra.
Qed.

Ltac float_tests :=
  repeat match goal with
  | |- context [ltb (Fin ?a) (Fin ?b)] =>
      let E := fresh "E" in
      destruct (ltb (Fin a) (Fin b)) eqn:E;
      [apply ltb_Fin in E | apply ltb_Fin_false in E]
  | |- context [leb (Fin ?a) (Fin ?b)] =>
      let E := fresh "E" in
      destruct (leb (Fin a) (Fin b)) eqn:E;
      [apply leb_Fin in E | apply leb_Fin_false in E]
  end.

(** ** interpret_correlation *)

(** What the chain of tests returns on a finite value: the seven bands of
    the thresholds, the value [-0.2] itself going to the last branch. *)
Lemma interpret_correlation_finite (q : Q) :
  ((lit_0_8 < q)%Q -> interpret_correlation_class (Fin q) = StrongPositive) /\
  ((lit_0_5 < q <= lit_0_8)%Q -> interpret_correlation_class (Fin q) = ModeratePositive) /\
  ((lit_0_2 < q <= lit_0_5)%Q -> interpret_correlation_class (Fin q) = WeakPositive) /\
  ((- lit_0_2 < q <= lit_0_2)%Q -> interpret_correlation_class (Fin q) = NoCorrelation) /\
  ((- lit_0_5 <= q < - lit_0_2)%Q -> interpret_correlation_class (Fin q) = WeakNegative) /\
  ((- lit_0_8 <= q < - lit_0_5)%Q -> interpret_correlation_class (Fin q) = ModerateNegative) /\
  ((q < - lit_0_8)%Q -> interpret_correlation_class (Fin q) = StrongNegative) /\
  ((q == - lit_0_2)%Q -> interpret_correlation_class (Fin q) = StrongNegative).
Proof.
  unfold interpret_correlation_class, gtb, f0_8, f0_5, f0_2, fm0_2, fm0_5, fm0_8.
  repeat split; intros H; float_tests; simpl; try reflexivity;
    exfalso; unfold lit_0_8, lit_0_5, lit_0_2 in *; lra.
Qed.

(** C5: the thresholds have [-0.2 <= v <= 0.2] as the band of "No
    Correlation", closed at [-0.2].  The code tests [-0.2 < v <= 0.2] there
    and [v < -0.2] in the next band, so the value [-0.2] itself passes no
    test and is reported as a strong negative correlation. *)
Theorem interpret_correlation_at_minus_0_2 :
  interpret_correlation fm0_2 = "Strong Negative Correlation" /\
  interpret_correlation fm0_2 <> "No Correlation" /\
  no_comparison_holds fm0_2.
Proof.
  split; [reflexivity | split; [discriminate |]].
  unfold no_comparison_holds. repeat split; reflexivity.
Qed.

(** C10: [interpret_correlation] returns one of its seven strings on every
    float, and it returns "Strong Negative Correlation" on every input for
    which none of the six comparisons holds; NaN is such an input. *)
Theorem interpret_correlation_else_branch :
  (forall v : float, exists e, interpret_correlation v = evaluation_string e) /\
  (forall v : float, no_comparison_holds v ->
     interpret_correlation v = "Strong Negative Correlation") /\
  no_comparison_holds NaN.
Proof.
  split; [| split].
  - intros v. exists (interpret_correlation_class v). reflexivity.
  - intros v (H1 & H2 & H3 & H4 & H5 & H6).
    unfold interpret_correlation, interpret_correlation_class.
    rewrite H1, H2, H3, H4, H5, H6. reflexivity.
  - unfold no_comparison_holds. repeat split; reflexivity.
Qed.

Lemma interpret_correlation_else_branch_witness :
  no_comparison_holds NaN /\
  interpret_correlation NaN = "Strong Negative Correlation".
Proof.
  split.
  - unfold no_comparison_holds. repeat split; reflexivity.
  - apply (proj1 (proj2 interpret_correlation_else_branch) NaN).
    unfold no_comparison_holds. repeat split; reflexivity.
Defined.

(** ** clean_data *)

Lemma row_get_insert_eq (r : gmap string cell) f v : row_get (<[f := v]> r) f = v.
Proof. unfold row_get. by rewrite lookup_insert_eq. Qed.

Lemma row_get_insert_ne (r : gmap string cell) f g v :
  f ≠ g -> row_get (<[f := v]> r) g = row_get r g.
Proof. intros H. unfold row_get. by rewrite lookup_insert_ne. Qed.

Ltac row_simpl :=
  repeat first
    [ rewrite row_get_insert_eq
    | rewrite row_get_insert_ne by discriminate ].

Lemma assign_map f (h : gmap string cell -> cell) rs :
  assign f rs (map h rs) = map (fun r => <[f := h r]> r) rs.
Proof. induction rs as [|r rs IH]; simpl; [reflexivity | by rewrite IH]. Qed.

Lemma mapM_map {A B C} (f : B -> result C) (g : A -> B) l :
  mapM f (map g l) = mapM (fun x => f (g x)) l.
Proof. induction l as [|x l IH]; simpl; [reflexivity | by rewrite IH]. Qed.

Lemma mapM_ext_in {A B} (f g : A -> result B) l :
  (forall x, In x l -> f x = g x) -> mapM f l = mapM g l.
Proof.
  induction l as [|x l IH]; simpl; intros H; [reflexivity|].
  rewrite (H x) by auto. rewrite IH by auto. reflexivity.
Qed.

Lemma mapM_OK {A B} (f : A -> result B) (d : B) l ys :
  mapM f l = OK ys ->
  ys = map (fun x => match f x with OK y => y | Raise _ => d end) l.
Proof.
  revert ys. induction l as [|x l IH]; simpl; intros ys H.
  - by inversion H.
  - destruct (f x) as [y|e]; simpl in H; [|discriminate].
    destruct (mapM f l) as [ys'|e]; simpl in H; [|discriminate].
    inversion H; subst. f_equal. by apply IH.
Qed.

Lemma has_column_In c df : has_column c df = true <-> In c (columns df).
Proof.
  unfold has_column. rewrite bool_decide_eq_true. apply list_elem_of_In.
Qed.

Lemma getitem_ok f df :
  has_column f df = true -> getitem f df = OK (map (fun r => row_get r f) (rows df)).
Proof. intros H. unfold getitem. by rewrite H. Qed.

Lemma missing_columns_nil subset df :
  (forall c, In c subset -> has_column c df = true) -> missing_columns subset df = [].
Proof.
  intros H. unfold missing_columns. induction subset as [|c l IH]; simpl; [reflexivity|].
  rewrite H by (left; reflexivity). simpl. apply IH. intros; apply H; by right.
Qed.

Lemma dropna_ok subset df :
  (forall c, In c subset -> has_column c df = true) ->
  dropna subset df =
    OK {| columns := columns df; rows := List.filter (complete_on subset) (rows df) |}.
Proof. intros H. unfold dropna. by rewrite missing_columns_nil. Qed.

Lemma setitem_map f (h : gmap string cell -> cell) df :
  has_column f df = true ->
  setitem f (map h (rows df)) df =
    {| columns := columns df; rows := map (fun r => <[f := h r]> r) (rows df) |}.
Proof. intros H. unfold setitem. by rewrite H, assign_map. Qed.


Lemma bind_OK {A B} (a : A) (f : A -> result B) : (OK a ≫= f) = f a.
Proof. reflexivity. Qed.

Lemma getitem_rows f cols rs :
  In f cols ->
  getitem f {| columns := cols; rows := rs |} = OK (map (fun r => row_get r f) rs).
Proof. intros H. apply getitem_ok. by apply has_column_In. Qed.

Lemma setitem_rows f (h : gmap string cell -> cell) cols rs :
  In f cols ->
  setitem f (map h rs) {| columns := cols; rows := rs |} =
    {| columns := cols; rows := map (fun r => <[f := h r]> r) rs |}.
Proof.
  intros H. apply (setitem_map f h {| columns := cols; rows := rs |}).
  by apply has_column_In.
Qed.

Lemma fill_unknown_rows f cols rs :
  In f cols ->
  fill_unknown {| columns := cols; rows := rs |} f =
    OK {| columns := cols; rows := map (fill_row f) rs |}.
Proof.
  intros H. unfold fill_unknown. rewrite getitem_rows by done. rewrite bind_OK.
  unfold fillna. rewrite map_map.
  by rewrite (setitem_rows f (fun r => fill_value (row_get r f))).
Qed.

Lemma foldM_fill_unknown fields cols rs :
  (forall f, In f fields -> In f cols) ->
  foldM fill_unknown fields {| columns := cols; rows := rs |} =
    OK {| columns := cols; rows := map (fun r => fold_left (fun r f => fill_row f r) fields r) rs |}.
Proof.
  revert rs. induction fields as [|f fields IH]; intros rs H; simpl.
  - by rewrite map_id.
  - rewrite fill_unknown_rows by (apply H; by left). rewrite bind_OK.
    rewrite IH by (intros; apply H; by right). by rewrite map_map.
Qed.

Section CleanerFacts.
Variable parse_numeric : string -> option float.
Variable parse_datetime : string -> option Timestamp.
Variable datetime_of_number : float -> option Timestamp.
Variable current_year : Z.

Abbreviation clean_data := (clean_data parse_numeric parse_datetime datetime_of_number current_year).
Abbreviation clean_row := (clean_row parse_numeric parse_datetime datetime_of_number current_year).
Abbreviation clean_rows := (clean_rows parse_numeric parse_datetime datetime_of_number current_year).
Abbreviation household_int := (household_int parse_numeric).
Abbreviation household_num := (household_num parse_numeric).
Abbreviation income_row := (income_row parse_numeric).
Abbreviation household_row := (household_row parse_numeric).
Abbreviation birthdate_row := (birthdate_row parse_datetime datetime_of_number).
Abbreviation age_row := (age_row current_year).

Lemma household_int_income_fill (r : gmap string cell) :
  household_int (income_row (fold_left (fun r f => fill_row f r) categorical_fields r))
  = household_int r.
Proof.
  unfold household_int, household_float, income_row. simpl. unfold fill_row.
  by row_simpl.
Qed.

Lemma clean_data_rows (data : DataFrame) :
  (forall c, In c required_columns -> has_column c data = true) ->
  clean_data data =
    match mapM household_int (List.filter (complete_on essential_fields) (rows data)) with
    | OK _ => OK (clean_rows data)
    | Raise e => Raise e
    end.
Proof.
  intros Hcols.
  assert (Hc : forall c, In c required_columns -> In c (columns data)).
  { intros c Hin. apply has_column_In. by apply Hcols. }
  unfold clean_data.
  rewrite dropna_ok by (intros c Hin; apply Hcols; unfold required_columns; apply in_or_app; by left).
  rewrite bind_OK.
  set (rs := List.filter (complete_on essential_fields) (rows data)).
  rewrite foldM_fill_unknown
    by (intros f Hf; apply Hc; unfold required_columns; apply in_or_app; right; apply in_or_app; by left).
  rewrite bind_OK.
  remember (map (fun r => fold_left (fun r f => fill_row f r) categorical_fields r) rs)
    as rs1 eqn:Ers1.
  rewrite getitem_rows by (apply Hc; unfold required_columns; simpl; tauto).
  rewrite bind_OK. unfold to_numeric. rewrite !map_map.
  rewrite (setitem_rows "avgMonthlyIncome"
             (fun r => Num (to_numeric_scalar parse_numeric (row_get r "avgMonthlyIncome"))))
    by (apply Hc; unfold required_columns; simpl; tauto).
  fold income_row.
  remember (map income_row rs1) as rs2 eqn:Ers2.
  rewrite getitem_rows by (apply Hc; unfold required_columns; simpl; tauto).
  rewrite bind_OK. unfold astype_int, fillna_float. rewrite !map_map, mapM_map.
  change (mapM _ rs2) with (mapM household_int rs2).
  assert (Hhh : mapM household_int rs2 = mapM household_int rs).
  { subst rs2 rs1. rewrite map_map, mapM_map. apply mapM_ext_in.
    intros r _. apply household_int_income_fill. }
  rewrite <- Hhh.
  destruct (mapM household_int rs2) as [hs|e] eqn:Ehs; [|reflexivity].
  rewrite bind_OK.
  apply (mapM_OK _ 0) in Ehs. rewrite Ehs. fold household_num. rewrite map_map.
  rewrite (setitem_rows "householdNum" (fun r => Num (of_Z (household_num r))))
    by (apply Hc; unfold required_columns; simpl; tauto).
  fold household_row.
  remember (map household_row rs2) as rs3 eqn:Ers3.
  rewrite getitem_rows by (apply Hc; unfold required_columns; simpl; tauto).
  rewrite bind_OK. unfold to_datetime. rewrite map_map.
  rewrite (setitem_rows "birthdate"
             (fun r => to_datetime_scalar parse_datetime datetime_of_number (row_get r "birthdate")))
    by (apply Hc; unfold required_columns; simpl; tauto).
  fold birthdate_row.
  remember (map birthdate_row rs3) as rs4 eqn:Ers4.
  rewrite getitem_rows by (apply Hc; unfold required_columns; simpl; tauto).
  rewrite bind_OK. unfold rsub, dt_year. rewrite !map_map.
  change (map _ rs4) with (map (fun r => age_cell current_year (row_get r "birthdate")) rs4).
  unfold setitem. rewrite assign_map. fold age_row.
  change (rows {| columns := columns data; rows := rs4 |}) with rs4.
  change (has_column "age" {| columns := columns data; rows := rs4 |})
    with (has_column "age" data).
  change (columns {| columns := columns data; rows := rs4 |}) with (columns data).
  fold (cleaned_columns data).
  rewrite dropna_ok.
  - unfold clean_rows. simpl. do 2 f_equal.
    subst rs4 rs3 rs2 rs1. by rewrite !map_map.
  - intros c Hin. apply has_column_In. simpl. unfold cleaned_columns.
    destruct (has_column "age" data) eqn:Hage.
    + destruct Hin as [<-|[<-|[]]].
      * apply Hc. unfold required_columns. simpl. tauto.
      * by apply has_column_In.
    + apply in_or_app. destruct Hin as [<-|[<-|[]]].
      * left. apply Hc. unfold required_columns. simpl. tauto.
      * right. by left.
Qed.

Lemma household_num_income_fill (r : gmap string cell) :
  household_num (income_row (fold_left (fun r f => fill_row f r) categorical_fields r))
  = household_num r.
Proof. unfold household_num. by rewrite household_int_income_fill. Qed.

Lemma clean_row_normal (r : gmap string cell) :
  clean_row r =
  <["age" := age_cell current_year
               (to_datetime_scalar parse_datetime datetime_of_number (row_get r "birthdate"))]>
  (<["birthdate" := to_datetime_scalar parse_datetime datetime_of_number (row_get r "birthdate")]>
  (<["householdNum" := Num (of_Z (household_num r))]>
  (<["avgMonthlyIncome" := Num (to_numeric_scalar parse_numeric (row_get r "avgMonthlyIncome"))]>
  (<["ethnicity" := fill_value (row_get r "ethnicity")]>
  (<["sectorCode" := fill_value (row_get r "sectorCode")]>
  (<["relationToHead" := fill_value (row_get r "relationToHead")]>
  (<["educationalAttainment" := fill_value (row_get r "educationalAttainment")]>
  (<["occupation" := fill_value (row_get r "occupation")]> r)))))))).
Proof.
  unfold clean_row, age_row, birthdate_row, household_row.
  rewrite household_num_income_fill.
  unfold income_row. simpl. unfold fill_row. by row_simpl.
Qed.

Lemma fill_value_notna (c : cell) : notna (fill_value c) = true.
Proof. unfold fill_value, notna. destruct (isna c) eqn:E; [reflexivity | by rewrite E]. Qed.

Lemma fill_value_idem (c : cell) : fill_value (fill_value c) = fill_value c.
Proof.
  pose proof (fill_value_notna c) as H. unfold notna in H.
  unfold fill_value at 1. by destruct (isna (fill_value c)).
Qed.

Lemma to_datetime_scalar_idem (c : cell) :
  to_datetime_scalar parse_datetime datetime_of_number
    (to_datetime_scalar parse_datetime datetime_of_number c)
  = to_datetime_scalar parse_datetime datetime_of_number c.
Proof.
  destruct c as [s|x|t|]; simpl; try reflexivity.
  - by destruct (parse_datetime s).
  - destruct x; simpl; try reflexivity; by destruct (datetime_of_number _).
Qed.

Lemma Qtrunc_inject_Z (z : Z) : Qtrunc (inject_Z z) = z.
Proof. unfold Qtrunc. simpl. apply Z.quot_1_r. Qed.

Lemma cast_int64_range (q : Q) : int64_min <= cast_int64 q <= int64_max.
Proof.
  unfold cast_int64.
  destruct ((int64_min <=? Qtrunc q) && (Qtrunc q <=? int64_max))%Z eqn:E.
  - apply andb_true_iff in E as [E1 E2]. lia.
  - unfold int64_min, int64_max. lia.
Qed.

Lemma cast_int64_inject_Z (z : Z) :
  int64_min <= z <= int64_max -> cast_int64 (inject_Z z) = z.
Proof.
  intros H. unfold cast_int64. rewrite Qtrunc_inject_Z.
  destruct ((int64_min <=? z) && (z <=? int64_max))%Z eqn:E; [reflexivity|].
  apply andb_false_iff in E as [E|E]; lia.
Qed.

Lemma household_num_range (r : gmap string cell) :
  int64_min <= household_num r <= int64_max.
Proof.
  unfold household_num, household_int.
  destruct (household_float parse_numeric r); simpl;
    try (unfold int64_min, int64_max; lia).
  apply cast_int64_range.
Qed.

Lemma household_int_of_Z (r : gmap string cell) (z : Z) :
  int64_min <= z <= int64_max ->
  row_get r "householdNum" = Num (of_Z z) -> household_int r = OK z.
Proof.
  intros Hz H. unfold household_int, household_float. rewrite H. simpl.
  by rewrite cast_int64_inject_Z.
Qed.

Lemma clean_row_idem (r : gmap string cell) : clean_row (clean_row r) = clean_row r.
Proof.
  rewrite (clean_row_normal (clean_row r)).
  assert (Hh : household_num (clean_row r) = household_num r).
  { unfold household_num at 1.
    rewrite (household_int_of_Z _ (household_num r)); [reflexivity | apply household_num_range |].
    rewrite clean_row_normal. by row_simpl. }
  rewrite Hh.
  rewrite !(clean_row_normal r) at 1 2 3 4 5 6 7 8. row_simpl.
  rewrite to_datetime_scalar_idem, !fill_value_idem. simpl to_numeric_scalar.
  rewrite clean_row_normal.
  repeat (rewrite insert_id; [| by simplify_map_eq]).
  reflexivity.
Qed.

Lemma has_column_columns c df df' :
  columns df' = columns df -> has_column c df' = has_column c df.
Proof. intros H. unfold has_column. by rewrite H. Qed.

Lemma dropna_inv subset df df' :
  dropna subset df = OK df' ->
  (forall c, In c subset -> has_column c df = true) /\ columns df' = columns df.
Proof.
  unfold dropna. destruct (missing_columns subset df) as [|m ms] eqn:E; [|discriminate].
  intros H. inversion H; subst; clear H. split; [|reflexivity].
  intros c Hin. destruct (has_column c df) eqn:Hc; [reflexivity|].
  assert (Hm : In c (missing_columns subset df)).
  { unfold missing_columns. apply filter_In. by rewrite Hc. }
  rewrite E in Hm. destruct Hm.
Qed.

Lemma getitem_inv f df s : getitem f df = OK s -> has_column f df = true.
Proof. unfold getitem. by destruct (has_column f df). Qed.

Lemma setitem_columns f s df :
  has_column f df = true -> columns (setitem f s df) = columns df.
Proof. intros H. unfold setitem. simpl. by rewrite H. Qed.

Lemma fill_unknown_inv df f df' :
  fill_unknown df f = OK df' -> has_column f df = true /\ columns df' = columns df.
Proof.
  unfold fill_unknown. destruct (getitem f df) as [s|e] eqn:E; [|discriminate].
  rewrite bind_OK. intros H. inversion H; subst; clear H.
  apply getitem_inv in E. split; [done|]. by apply setitem_columns.
Qed.

Lemma foldM_fill_unknown_inv fields df df' :
  foldM fill_unknown fields df = OK df' ->
  (forall f, In f fields -> has_column f df = true) /\ columns df' = columns df.
Proof.
  revert df. induction fields as [|f fields IH]; simpl; intros df H.
  - inversion H; subst. split; [intros ? []|reflexivity].
  - destruct (fill_unknown df f) as [df1|e] eqn:E; [|discriminate].
    rewrite bind_OK in H. apply fill_unknown_inv in E as [Hf Hc].
    apply IH in H as [Hfs Hc']. split.
    + intros g [<-|Hg]; [done|]. rewrite <- (has_column_columns g df df1) by done. by apply Hfs.
    + congruence.
Qed.

Lemma clean_data_OK_columns (data out : DataFrame) :
  clean_data data = OK out ->
  forall c, In c required_columns -> has_column c data = true.
Proof.
  unfold clean_data. intros H.
  destruct (dropna essential_fields data) as [d1|e] eqn:E1; [|discriminate].
  rewrite bind_OK in H.
  destruct (foldM fill_unknown categorical_fields d1) as [d2|e] eqn:E2; [|discriminate].
  rewrite bind_OK in H.
  destruct (getitem "avgMonthlyIncome" d2) as [s1|e] eqn:E3; [|discriminate].
  rewrite bind_OK in H.
  match type of H with
  | context [getitem "householdNum" ?d] =>
      destruct (getitem "householdNum" d) as [s2|e] eqn:E4; [|discriminate]
  end.
  clear H.
  apply dropna_inv in E1 as [H1 C1]. apply foldM_fill_unknown_inv in E2 as [H2 C2].
  apply getitem_inv in E3. apply getitem_inv in E4.
  rewrite (has_column_columns _ d2) in E4 by (by apply setitem_columns).
  intros c Hin. unfold required_columns in Hin.
  apply in_app_or in Hin as [Hin|Hin]; [by apply H1|].
  apply in_app_or in Hin as [Hin|Hin].
  - rewrite <- (has_column_columns c data d1) by done. by apply H2.
  - destruct Hin as [<-|[]].
    rewrite <- (has_column_columns _ data d2) by congruence. done.
Qed.

Lemma mapM_OK_In {A B} (f : A -> result B) l ys x :
  mapM f l = OK ys -> In x l -> exists y, f x = OK y.
Proof.
  revert ys. induction l as [|a l IH]; simpl; intros ys H Hin; [destruct Hin|].
  destruct (f a) as [y|e] eqn:Ea; [|discriminate]. rewrite bind_OK in H.
  destruct (mapM f l) as [ys'|e] eqn:El; [|discriminate].
  destruct Hin as [<-|Hin]; [by exists y|]. by apply (IH ys').
Qed.

Lemma mapM_all_OK {A B} (f : A -> result B) l :
  (forall x, In x l -> exists y, f x = OK y) -> exists ys, mapM f l = OK ys.
Proof.
  induction l as [|a l IH]; simpl; intros H; [by exists []|].
  destruct (H a) as [y Hy]; [by left|]. rewrite Hy, bind_OK.
  destruct IH as [ys Hys]; [intros; apply H; by right|]. rewrite Hys, bind_OK.
  by exists (y :: ys).
Qed.

(** What a successful run tells. *)
Lemma clean_data_OK_inv (data out : DataFrame) :
  clean_data data = OK out ->
  out = clean_rows data /\
  (forall c, In c required_columns -> has_column c data = true) /\
  (forall r, In r (rows data) -> complete_on essential_fields r = true ->
     exists z, household_int r = OK z).
Proof.
  intros H. pose proof (clean_data_OK_columns _ _ H) as Hcols.
  rewrite clean_data_rows in H by done.
  destruct (mapM household_int _) as [hs|e] eqn:E; [|discriminate].
  inversion H; subst; clear H. split; [reflexivity|]. split; [done|].
  intros r Hin Hc. apply (mapM_OK_In _ _ _ r E). apply filter_In. by split.
Qed.

Lemma in_clean_rows (data : DataFrame) (r : gmap string cell) :
  In r (rows (clean_rows data)) <->
  exists r0, In r0 (rows data) /\ complete_on essential_fields r0 = true /\
             r = clean_row r0 /\ complete_on ["birthdate"; "age"] r = true.
Proof.
  unfold clean_rows. simpl. rewrite filter_In, in_map_iff. split.
  - intros [[r0 [<- Hin]] Hc]. apply filter_In in Hin as [Hin He]. by exists r0.
  - intros (r0 & Hin & He & -> & Hc). split; [|done]. exists r0. split; [done|].
    apply filter_In. by split.
Qed.

Lemma complete_on_In subset (r : gmap string cell) c :
  complete_on subset r = true -> In c subset -> notna (row_get r c) = true.
Proof. unfold complete_on. rewrite forallb_forall. auto. Qed.

Lemma clean_row_get_other (r : gmap string cell) (c : string) :
  In c ["gender"; "civilStatus"; "employmentStatus"] ->
  row_get (clean_row r) c = row_get r c.
Proof.
  intros H. rewrite clean_row_normal.
  simpl in H. destruct H as [<-|[<-|[<-|[]]]]; by row_simpl.
Qed.

Lemma clean_row_get_categorical (r : gmap string cell) (c : string) :
  In c categorical_fields -> row_get (clean_row r) c = fill_value (row_get r c).
Proof.
  intros H. rewrite clean_row_normal.
  simpl in H. destruct H as [<-|[<-|[<-|[<-|[<-|[]]]]]]; by row_simpl.
Qed.

Lemma clean_row_get_income (r : gmap string cell) :
  row_get (clean_row r) "avgMonthlyIncome"
  = Num (to_numeric_scalar parse_numeric (row_get r "avgMonthlyIncome")).
Proof. rewrite clean_row_normal. by row_simpl. Qed.

Lemma clean_row_get_household (r : gmap string cell) :
  row_get (clean_row r) "householdNum" = Num (of_Z (household_num r)).
Proof. rewrite clean_row_normal. by row_simpl. Qed.

Lemma clean_row_get_birthdate (r : gmap string cell) :
  row_get (clean_row r) "birthdate"
  = to_datetime_scalar parse_datetime datetime_of_number (row_get r "birthdate").
Proof. rewrite clean_row_normal. by row_simpl. Qed.

(** C2, amended: every row of the table that [clean_data] returns has a
    value in gender, birthdate, civilStatus and employmentStatus and has an
    age; its avgMonthlyIncome was present in the raw row and is now the
    numeric reading of that raw value, which is NaN when the value is not a
    number; each optional categorical field is "Unknown" where the raw
    value was missing and the raw value otherwise. *)
Theorem clean_data_invariant (data out : DataFrame) :
  clean_data data = OK out ->
  forall r, In r (rows out) ->
    (forall c, In c ["gender"; "birthdate"; "civilStatus"; "employmentStatus"; "age"] ->
       notna (row_get r c) = true) /\
    exists r0, In r0 (rows data) /\
      notna (row_get r0 "avgMonthlyIncome") = true /\
      row_get r "avgMonthlyIncome"
        = Num (to_numeric_scalar parse_numeric (row_get r0 "avgMonthlyIncome")) /\
      forall c, In c categorical_fields ->
        (isna (row_get r0 c) = true /\ row_get r c = Str "Unknown") \/
        (isna (row_get r0 c) = false /\ row_get r c = row_get r0 c).
Proof.
  intros H r Hr. apply clean_data_OK_inv in H as (-> & _ & _).
  apply in_clean_rows in Hr as (r0 & Hin & He & -> & Hc). split.
  - intros c Hc'. simpl in Hc'. destruct Hc' as [<-|[<-|[<-|[<-|[<-|[]]]]]].
    + rewrite clean_row_get_other by (simpl; tauto).
      apply (complete_on_In essential_fields); [done | simpl; tauto].
    + apply (complete_on_In _ _ _ Hc). simpl; tauto.
    + rewrite clean_row_get_other by (simpl; tauto).
      apply (complete_on_In essential_fields); [done | simpl; tauto].
    + rewrite clean_row_get_other by (simpl; tauto).
      apply (complete_on_In essential_fields); [done | simpl; tauto].
    + apply (complete_on_In _ _ _ Hc). simpl; tauto.
  - exists r0. split; [done|]. split.
    { apply (complete_on_In essential_fields); [done | simpl; tauto]. }
    split; [apply clean_row_get_income|].
    intros c Hcat. rewrite clean_row_get_categorical by done. unfold fill_value.
    destruct (isna (row_get r0 c)); [left | right]; done.
Qed.

(** C9, amended: in every row of the table that [clean_data] returns,
    householdNum is an integer: 0 where the raw value was missing or not a
    number, and otherwise the raw number cast to int64, that is rounded
    toward zero, its sign kept. *)
Theorem clean_data_householdNum (data out : DataFrame) :
  clean_data data = OK out ->
  forall r, In r (rows out) ->
    exists r0 z, In r0 (rows data) /\
      row_get r "householdNum" = Num (of_Z z) /\
      match to_numeric_scalar parse_numeric (row_get r0 "householdNum") with
      | NaN => z = 0
      | Fin q => z = cast_int64 q
      | _ => False
      end.
Proof.
  intros H r Hr. apply clean_data_OK_inv in H as (-> & _ & Hh).
  apply in_clean_rows in Hr as (r0 & Hin & He & -> & Hc).
  destruct (Hh r0 Hin He) as [z Hz].
  exists r0, z. split; [done|]. split.
  - rewrite clean_row_get_household. unfold household_num. by rewrite Hz.
  - unfold household_int, household_float in Hz.
    destruct (to_numeric_scalar parse_numeric (row_get r0 "householdNum"));
      simpl in Hz; try discriminate.
    + inversion Hz. reflexivity.
    + by inversion Hz.
Qed.

(** C1, amended: when the table that [clean_data] returns has no missing
    avgMonthlyIncome, cleaning it again in the same calendar year returns
    it unchanged. *)
Theorem clean_data_idempotent (data out : DataFrame) :
  clean_data data = OK out ->
  (forall r, In r (rows out) -> notna (row_get r "avgMonthlyIncome") = true) ->
  clean_data out = OK out.
Proof.
  intros H Hinc. apply clean_data_OK_inv in H as (-> & Hcols & _).
  assert (Hage : has_column "age" (clean_rows data) = true).
  { apply has_column_In. unfold clean_rows, cleaned_columns. simpl.
    destruct (has_column "age" data) eqn:E; [by apply has_column_In|].
    apply in_or_app. right. by left. }
  assert (Hrows : forall r, In r (rows (clean_rows data)) ->
            complete_on essential_fields r = true /\ clean_row r = r /\
            complete_on ["birthdate"; "age"] r = true /\ exists z, household_int r = OK z).
  { intros r Hr. pose proof (Hinc r Hr) as Hi.
    apply in_clean_rows in Hr as (r0 & Hin & He & -> & Hc).
    split; [|split; [apply clean_row_idem|split; [done|]]].
    - unfold complete_on. apply forallb_forall. intros c Hc'.
      simpl in Hc'. destruct Hc' as [<-|[<-|[<-|[<-|[<-|[]]]]]]; try done.
      + rewrite clean_row_get_other by (simpl; tauto).
        apply (complete_on_In essential_fields); [done | simpl; tauto].
      + apply (complete_on_In _ _ _ Hc). simpl; tauto.
      + rewrite clean_row_get_other by (simpl; tauto).
        apply (complete_on_In essential_fields); [done | simpl; tauto].
      + rewrite clean_row_get_other by (simpl; tauto).
        apply (complete_on_In essential_fields); [done | simpl; tauto].
    - exists (household_num r0). apply household_int_of_Z.
      + apply household_num_range.
      + apply clean_row_get_household. }
  rewrite clean_data_rows.
  2:{ intros c Hc. apply has_column_In. unfold clean_rows, cleaned_columns. simpl.
      apply Hcols, has_column_In in Hc.
      destruct (has_column "age" data); [done | apply in_or_app; by left]. }
  destruct (mapM_all_OK household_int
              (List.filter (complete_on essential_fields) (rows (clean_rows data)))) as [hs ->].
  { intros r Hr. apply filter_In in Hr as [Hr _]. by apply Hrows. }
  f_equal. unfold clean_rows at 1. unfold cleaned_columns at 1. rewrite Hage.
  destruct (clean_rows data) as [cols rs] eqn:E. simpl in *. f_equal.
  assert (H1 : List.filter (complete_on essential_fields) rs = rs).
  { apply forallb_filter_id. apply forallb_forall. intros r Hr. by apply Hrows. }
  rewrite H1.
  assert (H2 : map clean_row rs = rs).
  { rewrite <- (map_id rs) at 2. apply map_ext_in. intros r Hr. by apply Hrows. }
  rewrite H2. apply forallb_filter_id. apply forallb_forall. intros r Hr. by apply Hrows.
Qed.


Lemma missing_columns_all subset df :
  (forall c, In c subset -> has_column c df = false) -> missing_columns subset df = subset.
Proof.
  intros H. unfold missing_columns. induction subset as [|c l IH]; simpl; [reflexivity|].
  rewrite H by (by left). simpl. f_equal. apply IH. intros; apply H; by right.
Qed.


End CleanerFacts.

(** ** Binning *)

Lemma filter_all_true {A} (f : A -> bool) l :
  (forall x, In x l -> f x = true) -> List.filter f l = l.
Proof. intros H. apply forallb_filter_id. by apply forallb_forall. Qed.

Lemma filter_all_false {A} (f : A -> bool) l :
  (forall x, In x l -> f x = false) -> List.filter f l = [].
Proof.
  induction l as [|x l IH]; simpl; intros H; [reflexivity|].
  rewrite H by (by left). apply IH. intros; apply H; by right.
Qed.

Lemma py_range_length start stop step :
  length (py_range start stop step) = Z.to_nat ((stop - start + step - 1) / step).
Proof. unfold py_range. by rewrite length_map, length_seq. Qed.

Lemma py_range_nth start stop step (k : nat) :
  (k < length (py_range start stop step))%nat ->
  nth_error (py_range start stop step) k = Some (start + step * Z.of_nat k).
Proof.
  rewrite py_range_length. intros H. unfold py_range.
  rewrite nth_error_map, nth_error_seq.
  destruct (Nat.ltb_spec k (Z.to_nat ((stop - start + step - 1) / step))); [reflexivity | lia].
Qed.

(** The number of edges at most [q], among the first [m] edges from [lo]. *)
Lemma searchsorted_right_edges (lo : Z) (q : Q) (m k : nat) :
  (k < m)%nat ->
  (inject_Z (lo + 10 * Z.of_nat k) <= q)%Q ->
  (q < inject_Z (lo + 10 * Z.of_nat k + 10))%Q ->
  searchsorted_right (map (fun i => lo + 10 * Z.of_nat i) (seq 0 m)) (Fin q) = S k.
Proof.
  intros Hk Hlo Hhi. unfold searchsorted_right.
  replace m with (S k + (m - S k))%nat by lia.
  rewrite seq_app, map_app, List.filter_app, length_app.
  rewrite filter_all_true, filter_all_false.
  - simpl. rewrite length_map, length_seq. lia.
  - intros e He. apply in_map_iff in He as (i & <- & Hi). apply in_seq in Hi.
    apply leb_Fin_false. eapply Qlt_le_trans; [apply Hhi|].
    rewrite <- Zle_Qle. lia.
  - intros e He. apply in_map_iff in He as (i & <- & Hi). apply in_seq in Hi.
    apply leb_Fin. eapply Qle_trans; [|apply Hlo].
    rewrite <- Zle_Qle. lia.
Qed.

Lemma cut_scalar_bucket (lo hi : Z) (labels : list string) (q : Q) (k : nat) :
  labels = map bin_label (py_range lo hi 10) ->
  Z.of_nat (length labels) = Z.of_nat (length (py_range lo (hi + 10) 10)) - 1 ->
  (k < length labels)%nat ->
  (inject_Z (lo + 10 * Z.of_nat k) <= q)%Q ->
  (q < inject_Z (lo + 10 * Z.of_nat k + 10))%Q ->
  cut_scalar (py_range lo (hi + 10) 10) labels (Fin q)
  = Some (bin_label (lo + 10 * Z.of_nat k)).
Proof.
  intros Hlab Hlen Hk Hlo Hhi. unfold cut_scalar.
  assert (Hlen' : length (py_range lo (hi + 10) 10) = S (length labels)) by lia.
  assert (Hs : searchsorted_right (py_range lo (hi + 10) 10) (Fin q) = S k).
  { unfold py_range at 1.
    apply (searchsorted_right_edges lo q _ k); [| exact Hlo | exact Hhi].
    rewrite py_range_length in Hlen'. lia. }
  rewrite Hs, Hlen'. cbn [isnan orb].
  replace (S k =? S (length labels))%nat with false
    by (symmetry; apply Nat.eqb_neq; lia).
  cbn [Nat.eqb orb]. replace (S k - 1)%nat with k by lia.
  subst labels. rewrite nth_error_map.
  rewrite length_map in Hk. by rewrite py_range_nth.
Qed.

Lemma cut_inv ages bins labels groups :
  cut ages bins labels = OK groups ->
  Z.of_nat (length labels) = Z.of_nat (length bins) - 1 /\
  groups = map (cut_scalar bins labels) ages.
Proof.
  unfold cut. destruct (Z.eqb_spec (Z.of_nat (length labels)) (Z.of_nat (length bins) - 1));
    [|discriminate].
  intros H. by inversion H.
Qed.

Lemma age_groups_inv (data : DataFrame) labels groups genders :
  age_groups data = OK (Some (labels, groups, genders)) ->
  exists age_col ages lo hi,
    getitem "age" data = OK age_col /\
    getitem "gender" data = OK genders /\
    mapM as_float age_col = OK ages /\
    int (series_min ages) = OK lo /\
    int (series_max ages) = OK hi /\
    labels = map bin_label (py_range lo hi 10) /\
    cut ages (py_range lo (hi + 10) 10) labels = OK groups.
Proof.
  unfold age_groups. destruct (empty data); [discriminate|].
  destruct (getitem "age" data) as [age_col|e] eqn:E1; [|discriminate]. rewrite bind_OK.
  destruct (all_na age_col); [discriminate|].
  destruct (getitem "gender" data) as [gender_col|e] eqn:E2; [|discriminate]. rewrite bind_OK.
  destruct (all_na gender_col); [discriminate|].
  destruct (mapM as_float age_col) as [ages|e] eqn:E3; [|discriminate]. rewrite bind_OK.
  destruct (int (series_min ages)) as [lo|e] eqn:E4; [|discriminate]. rewrite bind_OK.
  destruct (int (series_max ages)) as [hi|e] eqn:E5; [|discriminate]. rewrite bind_OK.
  destruct (cut ages _ _) as [gr|e] eqn:Ecut; [|discriminate]. rewrite bind_OK.
  intros H. inversion H; subst; clear H.
  exists age_col, ages, lo, hi. repeat split; done.
Qed.


(** ** The pivot *)

Lemma cell_eqb_Str_r (c : cell) (s : string) : cell_eqb c (Str s) = true -> c = Str s.
Proof. destruct c; simpl; try discriminate. intros H. apply String.eqb_eq in H. by subst. Qed.

Lemma cell_eqb_Str_l (c : cell) (s : string) : cell_eqb (Str s) c = true -> c = Str s.
Proof. destruct c; simpl; try discriminate. intros H. apply String.eqb_eq in H. by subst. Qed.

Lemma cell_eqb_Str_refl (s : string) : cell_eqb (Str s) (Str s) = true.
Proof. simpl. apply String.eqb_refl. Qed.

Lemma unique_incl (l : list cell) (x : cell) : In x (unique l) -> In x l.
Proof.
  induction l as [|a l IH]; simpl; [done|].
  intros [H|H]; [by left|]. apply filter_In in H as [H _]. right. by apply IH.
Qed.

Lemma unique_In_Str (l : list cell) (s : string) : In (Str s) l -> In (Str s) (unique l).
Proof.
  induction l as [|a l IH]; simpl; [done|].
  intros [H|H]; [by left|].
  destruct (cell_eqb a (Str s)) eqn:E.
  - left. by apply cell_eqb_Str_r.
  - right. apply filter_In. split; [by apply IH | by rewrite E].
Qed.

Lemma unique_labels_incl (l : list string) (x : string) : In x (unique_labels l) -> In x l.
Proof.
  induction l as [|a l IH]; simpl; [done|].
  intros [H|H]; [by left|]. apply filter_In in H as [H _]. right. by apply IH.
Qed.

Lemma in_product (ls : list string) (gs : list cell) l g :
  In (l, g) (product ls gs) <-> In l ls /\ In g gs.
Proof.
  unfold product. rewrite in_flat_map. split.
  - intros (l' & Hl & Hg). apply in_map_iff in Hg as (g' & Heq & Hg). by inversion Heq; subst.
  - intros [Hl Hg]. exists l. split; [done|]. apply in_map_iff. by exists g.
Qed.

Lemma keyed_In ag gs l g : In (l, g) (keyed ag gs) -> In g (List.filter notna gs).
Proof.
  revert gs. induction ag as [|a ag IH]; intros [|g0 gs]; simpl; try done.
  destruct a as [l0|].
  - destruct (notna g0) eqn:E.
    + intros [H|H]; [inversion H; subst; by left | right; by apply IH].
    + apply IH.
  - destruct (notna g0); [intros H; right|]; by apply IH.
Qed.

Lemma group_size_nonneg pairs k : 0 <= group_size pairs k.
Proof. unfold group_size. lia. Qed.

Lemma groupby_size_In observed labels ag gs kc :
  In kc (groupby_size observed labels ag gs) ->
  snd kc = group_size (keyed ag gs) (fst kc) /\
  In (fst (fst kc)) labels /\
  In (snd (fst kc)) (unique (List.filter notna gs)).
Proof.
  unfold groupby_size. intros H.
  assert (H' : In kc (map (fun k => (k, group_size (keyed ag gs) k))
                        (product labels (unique (List.filter notna gs))))).
  { destruct observed; [by apply filter_In in H as [H _] | done]. }
  apply in_map_iff in H' as ([l g] & <- & Hin). apply in_product in Hin. by simpl.
Qed.

Lemma groupby_size_absent observed labels ag gs l s :
  In l labels ->
  (forall kc, In kc (groupby_size observed labels ag gs) ->
     String.eqb (fst (fst kc)) l && cell_eqb (snd (fst kc)) (Str s) = false) ->
  group_size (keyed ag gs) (l, Str s) = 0.
Proof.
  intros Hl Habs.
  destruct (existsb (cell_eqb (Str s)) (unique (List.filter notna gs))) eqn:E.
  - apply existsb_exists in E as (c & Hc & Heq). apply cell_eqb_Str_l in Heq. subst c.
    assert (Hall : In ((l, Str s), group_size (keyed ag gs) (l, Str s))
                     (map (fun k => (k, group_size (keyed ag gs) k))
                        (product labels (unique (List.filter notna gs))))).
    { apply in_map_iff. exists (l, Str s). split; [done|]. by apply in_product. }
    pose proof (group_size_nonneg (keyed ag gs) (l, Str s)) as Hge.
    destruct (Z.ltb_spec 0 (group_size (keyed ag gs) (l, Str s))) as [Hpos|Hz]; [|lia].
    exfalso.
    assert (Hin : In ((l, Str s), group_size (keyed ag gs) (l, Str s))
                    (groupby_size observed labels ag gs)).
    { unfold groupby_size. destruct observed; [|done].
      apply filter_In. split; [done|]. simpl. by apply Z.ltb_lt. }
    apply Habs in Hin. simpl in Hin. by rewrite String.eqb_refl, String.eqb_refl in Hin.
  - unfold group_size. rewrite filter_all_false; [done|].
    intros [l' g] Hp. simpl. apply andb_false_iff. right.
    destruct (cell_eqb g (Str s)) eqn:Eg; [|done]. exfalso.
    apply cell_eqb_Str_r in Eg. subst g. apply keyed_In in Hp.
    apply unique_In_Str in Hp.
    assert (Ht : existsb (cell_eqb (Str s)) (unique (List.filter notna gs)) = true).
    { apply existsb_exists. exists (Str s). split; [done | apply cell_eqb_Str_refl]. }
    congruence.
Qed.

Lemma cell_eqb_Str_sym (c : cell) (s : string) : cell_eqb (Str s) c = cell_eqb c (Str s).
Proof. destruct c; simpl; try reflexivity. apply String.eqb_sym. Qed.

Lemma combine_map_r {A B} (f : A -> B) (l : list A) :
  combine l (map f l) = map (fun x => (x, f x)) l.
Proof. induction l as [|x l IH]; simpl; [reflexivity | by rewrite IH]. Qed.

(** Reading a column of a row whose first values are computed from the
    column keys. *)
Lemma wide_get_app (f : cell -> float) (cols ecs : list cell) (evs : list float) (s : string) :
  wide_get (cols ++ ecs) (map f cols ++ evs) (Str s)
  = if existsb (cell_eqb (Str s)) cols then f (Str s) else wide_get ecs evs (Str s).
Proof.
  unfold wide_get. induction cols as [|c cols IH]; [reflexivity|].
  cbn [app map combine List.find existsb fst snd].
  rewrite cell_eqb_Str_sym. destruct (cell_eqb c (Str s)) eqn:E; cbn [orb snd].
  - apply cell_eqb_Str_r in E. by subst.
  - apply IH.
Qed.

Lemma pivot_value_absent long l s :
  existsb (cell_eqb (Str s)) (unique (map (fun kc => snd (fst kc)) long)) = false ->
  pivot_value long l (Str s) = of_Z 0.
Proof.
  intros H. unfold pivot_value, long_lookup.
  destruct (List.find _ long) as [kc|] eqn:E; [|reflexivity]. exfalso.
  apply find_some in E as [Hin Ht]. apply andb_true_iff in Ht as [_ Ht].
  apply cell_eqb_Str_r in Ht.
  assert (Hc : In (Str s) (unique (map (fun kc => snd (fst kc)) long))).
  { apply unique_In_Str. rewrite <- Ht. apply in_map_iff. by exists kc. }
  assert (Ht' : existsb (cell_eqb (Str s)) (unique (map (fun kc => snd (fst kc)) long)) = true).
  { apply existsb_exists. exists (Str s). split; [done | apply cell_eqb_Str_refl]. }
  congruence.
Qed.

Lemma pivot_value_group_size observed labels ag gs l s :
  In l labels ->
  pivot_value (groupby_size observed labels ag gs) l (Str s)
  = of_Z (group_size (keyed ag gs) (l, Str s)).
Proof.
  intros Hl. unfold pivot_value, long_lookup.
  destruct (List.find _ _) as [kc|] eqn:E.
  - apply find_some in E as [Hin Ht]. apply andb_true_iff in Ht as [Ht1 Ht2].
    apply String.eqb_eq in Ht1. apply cell_eqb_Str_r in Ht2.
    apply groupby_size_In in Hin as (Hc & _ & _). simpl. rewrite Hc.
    destruct kc as [[l' g] c]. simpl in *. by subst.
  - simpl. rewrite (groupby_size_absent observed labels ag gs l s); [done | done |].
    intros kc Hin. apply (find_none _ _ E kc Hin).
Qed.

Lemma group_size_absent pairs l s :
  (forall p, In p pairs -> p <> (l, Str s)) -> group_size pairs (l, Str s) = 0.
Proof.
  intros H. unfold group_size. rewrite filter_all_false; [done|].
  intros [l' g] Hp. simpl. destruct (String.eqb_spec l' l) as [->|]; [|done]. simpl.
  destruct (cell_eqb g (Str s)) eqn:E; [|done].
  apply cell_eqb_Str_r in E. subst g. by destruct (H _ Hp).
Qed.

(** The table after [fillna(0)] and the two conditional insertions: the
    pivoted columns followed by the inserted ones. *)
Lemma pivot_completed (long : list (string * cell * Z)) :
  let w := wide_fillna (of_Z 0) (pivot long) in
  let w := if negb (wide_has (Str "Male") w) then wide_append (Str "Male") (of_Z 0) w else w in
  let w := if negb (wide_has (Str "Female") w) then wide_append (Str "Female") (of_Z 0) w else w in
  select_male_female w =
  OK {| columns := ["age_group"; "Male"; "Female"];
        rows := map (fun l => mkrow [("age_group", Str l);
                                     ("Male", Num (pivot_value long l (Str "Male")));
                                     ("Female", Num (pivot_value long l (Str "Female")))])
                  (index (pivot long)) |}.
Proof.
  set (cols := unique (map (fun kc => snd (fst kc)) long)).
  set (idx := unique_labels (map (fun kc => fst (fst kc)) long)).
  assert (Hshape : forall ecs evs,
    select_male_female
      {| index := idx; wcolumns := (cols ++ ecs)%list;
         wvalues := map (fun l => (map (pivot_value long l) cols ++ evs)%list) idx |}
    = match List.filter (fun k => negb (existsb (cell_eqb (Str k)) (cols ++ ecs)))
              ["Male"; "Female"] with
      | [] => OK {| columns := ["age_group"; "Male"; "Female"];
                    rows := map (fun l => mkrow
                      [("age_group", Str l);
                       ("Male", Num (if existsb (cell_eqb (Str "Male")) cols
                                     then pivot_value long l (Str "Male")
                                     else wide_get ecs evs (Str "Male")));
                       ("Female", Num (if existsb (cell_eqb (Str "Female")) cols
                                       then pivot_value long l (Str "Female")
                                       else wide_get ecs evs (Str "Female")))]) idx |}
      | missing => Raise (KeyError missing)
      end).
  { intros ecs evs. unfold select_male_female, wide_has. simpl wcolumns.
    destruct (List.filter _ _); [|reflexivity].
    f_equal. f_equal. simpl index. simpl wvalues.
    rewrite combine_map_r, map_map. apply map_ext. intros l. simpl fst. simpl snd.
    by rewrite !wide_get_app. }
  assert (Hw1 : wide_fillna (of_Z 0) (pivot long)
    = {| index := idx; wcolumns := (cols ++ [])%list;
         wvalues := map (fun l => (map (pivot_value long l) cols ++ [])%list) idx |}).
  { unfold wide_fillna, pivot. simpl. fold cols idx. rewrite app_nil_r. f_equal.
    rewrite map_map. apply map_ext. intros l. rewrite app_nil_r.
    unfold fillna_float. by rewrite map_map. }
  cbv zeta. rewrite Hw1. clear Hw1.
  unfold wide_has, wide_append. cbn [wcolumns index wvalues].
  rewrite (app_nil_r cols).
  rewrite (map_ext (fun l => (map (pivot_value long l) cols ++ [])%list)
             (fun l => map (pivot_value long l) cols))
    by (intros; apply app_nil_r).
  pose proof (Hshape [] []) as H0. rewrite (app_nil_r cols) in H0.
  rewrite (map_ext (fun l => (map (pivot_value long l) cols ++ [])%list)
             (fun l => map (pivot_value long l) cols)) in H0
    by (intros; apply app_nil_r).
  destruct (existsb (cell_eqb (Str "Male")) cols) eqn:EM; cbn [negb].
  - cbn [wcolumns index wvalues].
    destruct (existsb (cell_eqb (Str "Female")) cols) eqn:EF; cbn [negb].
    + rewrite H0. cbn [List.filter]. rewrite EM, EF. reflexivity.
    + cbn [wcolumns index wvalues]. rewrite map_map.
      rewrite Hshape. cbn [List.filter]. rewrite !existsb_app, EM, EF.
      cbn. f_equal. f_equal. apply map_ext. intros l.
      by rewrite (pivot_value_absent long l "Female").
  - cbn [wcolumns index wvalues]. rewrite map_map.
    rewrite existsb_app, orb_false_r.
    change (existsb (cell_eqb (Str "Female")) [Str "Male"]) with false.
    destruct (existsb (cell_eqb (Str "Female")) cols) eqn:EF; cbn [negb orb].
    + rewrite ?map_map. rewrite Hshape. cbn [List.filter]. rewrite !existsb_app, EM, EF.
      cbn. f_equal. f_equal. apply map_ext. intros l.
      by rewrite (pivot_value_absent long l "Male").
    + cbn [wcolumns index wvalues]. rewrite <- app_assoc, ?map_map.
      rewrite (map_ext _ (fun l => (map (pivot_value long l) cols ++ [of_Z 0; of_Z 0])%list))
        by (intros; by rewrite <- app_assoc).
      rewrite Hshape. cbn [List.filter]. rewrite !existsb_app, EM, EF.
      cbn. f_equal. f_equal. apply map_ext. intros l.
      by rewrite (pivot_value_absent long l "Male"), (pivot_value_absent long l "Female").
Qed.

(** C8: whenever the pivot is built, its columns are the age group followed
    by "Male" and "Female" in this order; the value under each of the two
    in the row of an age group is the number of input rows of that age
    group and gender, hence 0 for a combination, or a whole gender, that the
    input lacks.  This holds for either grouping mode of pandas. *)
Theorem pyramid_pivot_complete (observed : bool) (data df : DataFrame) :
  pyramid_pivot observed data = OK (Some df) ->
  columns df = ["age_group"; "Male"; "Female"] /\
  exists labels groups genders,
    age_groups data = OK (Some (labels, groups, genders)) /\
    forall r, In r (rows df) ->
      exists l, In l labels /\ row_get r "age_group" = Str l /\
        forall s, In s ["Male"; "Female"] ->
          row_get r s = Num (of_Z (group_size (keyed groups genders) (l, Str s))) /\
          ((forall p, In p (keyed groups genders) -> p <> (l, Str s)) ->
           row_get r s = Num (of_Z 0)).
Proof.
  unfold pyramid_pivot. intros H.
  destruct (age_groups data) as [[[[labels groups] genders]|]|e] eqn:E; try discriminate.
  rewrite bind_OK in H. cbv zeta in H.
  destruct (groupby_size observed labels groups genders) as [|kc0 long0] eqn:El;
    [discriminate|].
  rewrite <- El in H.
  pose proof (pivot_completed (groupby_size observed labels groups genders)) as Hp.
  cbv zeta in Hp. rewrite Hp in H. clear Hp. rewrite bind_OK in H.
  inversion H; subst; clear H. split; [reflexivity|].
  exists labels, groups, genders. split; [reflexivity|].
  intros r Hr. simpl in Hr. apply in_map_iff in Hr as (l & <- & Hl).
  assert (Hlab : In l labels).
  { apply unique_labels_incl in Hl. apply in_map_iff in Hl as (kc & <- & Hkc).
    by apply groupby_size_In in Hkc as (_ & ? & _). }
  exists l. split; [done|]. unfold mkrow. cbn [list_to_map foldr uncurry fst snd].
  split; [by row_simpl|].
  intros s Hs.
  assert (Hv : row_get (<["age_group":=Str l]> (<["Male":=Num (pivot_value
             (groupby_size observed labels groups genders) l (Str "Male"))]>
             (<["Female":=Num (pivot_value (groupby_size observed labels groups genders) l
                (Str "Female"))]> ∅))) s
             = Num (of_Z (group_size (keyed groups genders) (l, Str s)))).
  { simpl in Hs. destruct Hs as [<-|[<-|[]]]; row_simpl;
      by rewrite pivot_value_group_size. }
  split; [exact Hv|].
  intros Habs. rewrite Hv. by rewrite group_size_absent.
Qed.

(** *** The examples *)

Lemma required_columns_csv (c : string) :
  In c required_columns -> In c Examples.csv_columns.
Proof. unfold required_columns, Examples.csv_columns. simpl. tauto. Qed.

Lemma clean_three_residents :
  clean 2024 Examples.three_residents
  = OK (clean_rows Parsers.parse_decimal Parsers.parse_iso_date Parsers.epoch_nanoseconds
          2024 Examples.three_residents).
Proof. vm_compute. reflexivity. Qed.

(** C1, as stated, fails: the resident whose income is the text "abc"
    survives the first cleaning with a missing income, and the second
    cleaning drops the row. *)
Lemma clean_data_not_idempotent :
  (clean 2024 Examples.text_income ≫= clean 2024) <> clean 2024 Examples.text_income.
Proof.
  intros H.
  apply (f_equal (fun res => match res with OK d => length (rows d) | Raise _ => 0%nat end)) in H.
  vm_compute in H. discriminate.
Qed.

Lemma clean_data_idempotent_witness :
  clean 2024 Examples.three_residents
  = OK (clean_rows Parsers.parse_decimal Parsers.parse_iso_date Parsers.epoch_nanoseconds
          2024 Examples.three_residents) /\
  clean 2024 (clean_rows Parsers.parse_decimal Parsers.parse_iso_date Parsers.epoch_nanoseconds
                2024 Examples.three_residents)
  = OK (clean_rows Parsers.parse_decimal Parsers.parse_iso_date Parsers.epoch_nanoseconds
          2024 Examples.three_residents).
Proof.
  split; [vm_compute; reflexivity|].
  apply (clean_data_idempotent _ _ _ _ Examples.three_residents).
  - vm_compute. reflexivity.
  - intros r Hr. vm_compute in Hr. destruct Hr as [<-|[<-|[]]]; vm_compute; reflexivity.
Defined.

(** C2, as stated, fails: after cleaning, the income of the resident whose
    raw income is the text "abc" is missing. *)
Lemma clean_data_income_missing :
  (clean 2024 Examples.text_income ≫= getitem "avgMonthlyIncome") = OK [Num NaN] /\
  isna (Num NaN) = true.
Proof. split; vm_compute; reflexivity. Qed.

Lemma clean_data_invariant_witness :
  exists out, clean 2024 Examples.three_residents = OK out /\
    length (rows out) = 2%nat /\
    forall r, In r (rows out) ->
      forall c, In c ["gender"; "birthdate"; "civilStatus"; "employmentStatus"; "age"] ->
        notna (row_get r c) = true.
Proof.
  eexists. split; [apply clean_three_residents|]. split; [vm_compute; reflexivity|].
  intros r Hr.
  apply (clean_data_invariant _ _ _ _ Examples.three_residents _ clean_three_residents r Hr).
Defined.

(** C9, as stated, fails: a household number of -3 is still -3 after
    cleaning. *)
Lemma clean_data_household_negative :
  (clean 2024 Examples.negative_household ≫= getitem "householdNum") = OK [Num (of_Z (-3))].
Proof. vm_compute. reflexivity. Qed.

Lemma clean_data_householdNum_witness :
  exists out, clean 2024 Examples.three_residents = OK out /\
    forall r, In r (rows out) ->
      exists r0 z, In r0 (rows Examples.three_residents) /\
        row_get r "householdNum" = Num (of_Z z) /\
        match to_numeric_scalar Parsers.parse_decimal (row_get r0 "householdNum") with
        | NaN => z = 0
        | Fin q => z = cast_int64 q
        | _ => False
        end.
Proof.
  eexists. split; [apply clean_three_residents|].
  apply (clean_data_householdNum _ _ _ _ Examples.three_residents _ clean_three_residents).
Defined.


(** C4: the edges are to reach one bucket past the maximum, so that the
    maximum falls into the last bucket.  The code asks for the edges
    [range(age_min, age_max + 10, 10)], which stops short of [age_max + 10];
    when [age_max - age_min] is a multiple of 10 the last edge is the
    maximum itself and the maximum is in no bucket.  For the ages 5, 15 and
    25 the buckets are "5-14" and "15-24" only, and 25 gets none. *)
Lemma age_groups_5_15_25 :
  age_groups Examples.ages_5_15_25
  = OK (Some (["5-14"; "15-24"], [Some "5-14"; Some "15-24"; None],
              [Str "Male"; Str "Female"; Str "Male"])) /\
  ["5-14"; "15-24"] <> ["0-9"; "10-19"; "20-29"].
Proof. split; [vm_compute; reflexivity | discriminate]. Qed.


Lemma pyramid_pivot_men :
  pyramid_pivot true Examples.men_5_15_27
  = OK (Some (mkDataFrame ["age_group"; "Male"; "Female"]
          [mkrow [("age_group", Str "5-14"); ("Male", Num (of_Z 1)); ("Female", Num (of_Z 0))];
           mkrow [("age_group", Str "15-24"); ("Male", Num (of_Z 1)); ("Female", Num (of_Z 0))];
           mkrow [("age_group", Str "25-34"); ("Male", Num (of_Z 1)); ("Female", Num (of_Z 0))]])).
Proof. vm_compute. reflexivity. Qed.

Lemma pyramid_pivot_complete_witness :
  exists df, pyramid_pivot true Examples.men_5_15_27 = OK (Some df) /\
    columns df = ["age_group"; "Male"; "Female"] /\
    exists labels groups genders,
      age_groups Examples.men_5_15_27 = OK (Some (labels, groups, genders)) /\
      forall r, In r (rows df) ->
        exists l, In l labels /\ row_get r "age_group" = Str l /\
          forall s, In s ["Male"; "Female"] ->
            row_get r s = Num (of_Z (group_size (keyed groups genders) (l, Str s))) /\
            ((forall p, In p (keyed groups genders) -> p <> (l, Str s)) ->
             row_get r s = Num (of_Z 0)).
Proof.
  eexists. split; [apply pyramid_pivot_men|].
  apply (pyramid_pivot_complete true Examples.men_5_15_27 _ pyramid_pivot_men).
Defined.

(** ** Correlation and regression *)

Lemma pearsonr_short (x y : list float) :
  length x = length y -> (length x < 2)%nat ->
  pearsonr x y = Raise (ValueError "x and y must have length at least 2.").
Proof.
  intros Hlen Hshort. unfold pearsonr.
  rewrite (proj2 (Nat.eqb_eq _ _) Hlen). simpl negb. cbv iota.
  by rewrite (proj2 (Nat.ltb_lt _ _) Hshort).
Qed.

Lemma linregress_lengths (x y : list float) :
  x <> [] -> y <> [] ->
  float_eqb (amax x) (amin x) && (1 <? length x)%nat = false ->
  length x <> length y ->
  linregress x y = Raise (ValueError "all the input array dimensions must match exactly").
Proof.
  intros Hx Hy Hc Hlen. unfold linregress.
  destruct x as [|a x]; [done|]. destruct y as [|b y]; [done|].
  rewrite Hc. by rewrite (proj2 (Nat.eqb_neq _ _) Hlen).
Qed.

(** C6: the regression is to be fitted on the rows where both values are
    present.  The code drops the missing values of each column on its own;
    with a cleaned table in which one income is missing, the two arrays
    differ in length and [linregress] raises, where the fit over the paired
    rows, which lie on [y = 2x + 3], has slope 2, intercept 3 and
    [r ** 2 = 1].  The table arises from cleaning a file in which one
    income is text. *)
Theorem demographics_regression_unpaired :
  demographics_regression Examples.missing_income
  = Raise (ValueError "all the input array dimensions must match exactly") /\
  (clean 2024 Examples.text_income_among ≫= demographics_regression)
  = Raise (ValueError "all the input array dimensions must match exactly") /\
  exists fit,
    spec_linearRegression Examples.missing_income = OK fit /\
    (clean 2024 Examples.text_income_among ≫= spec_linearRegression) = OK fit /\
    float_eqb (slope fit) (of_Z 2) = true /\
    float_eqb (intercept fit) (of_Z 3) = true /\
    float_eqb (rsquare (r_value fit)) (of_Z 1) = true.
Proof.
  split; [vm_compute; reflexivity|]. split; [vm_compute; reflexivity|].
  eexists. split; [vm_compute; reflexivity|]. repeat split; vm_compute; reflexivity.
Qed.

(** C7: with fewer than two paired observations the coefficient is to be
    reported as not computable.  [display_demographics] calls [pearsonr]
    unguarded, and on a table of one row the call raises; the bubble chart,
    which tests that both columns take more than one value before the call,
    skips the coefficient on the same table. *)
Theorem demographics_correlation_one_row :
  demographics_correlation Examples.one_person
  = Raise (ValueError "x and y must have length at least 2.") /\
  (clean 2024 Examples.negative_household ≫= demographics_correlation)
  = Raise (ValueError "x and y must have length at least 2.") /\
  bubble_correlation "age" "avgMonthlyIncome" "gender" Examples.one_person = OK None.
Proof. repeat split; vm_compute; reflexivity. Qed.

(** ** More on clean_data *)

Lemma filter_map_comm {A B} (f : A -> B) (p : B -> bool) (l : list A) :
  List.filter p (map f l) = map f (List.filter (fun x => p (f x)) l).
Proof.
  induction l as [|x l IH]; simpl; [reflexivity|].
  destruct (p (f x)); simpl; by rewrite IH.
Qed.

Lemma filter_filter {A} (p q : A -> bool) (l : list A) :
  List.filter p (List.filter q l) = List.filter (fun x => q x && p x) l.
Proof.
  induction l as [|x l IH]; simpl; [reflexivity|].
  destruct (q x); simpl; [destruct (p x); simpl|]; by rewrite IH.
Qed.

Lemma foldM_fill_unknown_missing fields cols rs f :
  In f fields -> ~ In f cols ->
  exists g, In g fields /\ ~ In g cols /\
    foldM fill_unknown fields {| columns := cols; rows := rs |} = Raise (KeyError [g]).
Proof.
  revert rs. induction fields as [|a fields IH]; intros rs Hin Hf; [destruct Hin|].
  simpl. destruct (in_dec string_dec a cols) as [Ha|Ha].
  - rewrite fill_unknown_rows by done. rewrite bind_OK.
    destruct Hin as [->|Hin]; [done|].
    destruct (IH (map (fill_row a) rs) Hin Hf) as (g & Hg & Hg' & ->).
    exists g. split; [by right | done].
  - exists a. split; [by left|]. split; [done|].
    unfold fill_unknown, getitem.
    destruct (has_column a {| columns := cols; rows := rs |}) eqn:E; [|reflexivity].
    apply has_column_In in E. done.
Qed.

Lemma mapM_astype_raise {A} (f : A -> float) l e :
  mapM (fun x => astype_int_scalar (f x)) l = Raise e ->
  e = IntCastingNaNError /\ exists x, In x l /\ isfinite (f x) = false.
Proof.
  induction l as [|x l IH]; simpl; [discriminate|].
  destruct (f x) as [| | |q] eqn:E; simpl;
    try (intros H; inversion H; split; [done|]; exists x; rewrite E; split; [by left|done]).
  destruct (mapM _ l) as [ys|e'] eqn:El; simpl; [discriminate|].
  intros H. inversion H; subst. destruct (IH eq_refl) as [-> (y & Hy & Hy')].
  split; [done|]. exists y. split; [by right|done].
Qed.

Section CleanerMore.
Variable parse_numeric : string -> option float.
Variable parse_datetime : string -> option Timestamp.
Variable datetime_of_number : float -> option Timestamp.
Variable current_year : Z.

Abbreviation clean_data := (clean_data parse_numeric parse_datetime datetime_of_number current_year).
Abbreviation clean_row := (clean_row parse_numeric parse_datetime datetime_of_number current_year).
Abbreviation clean_rows := (clean_rows parse_numeric parse_datetime datetime_of_number current_year).
Abbreviation household_int := (household_int parse_numeric).
Abbreviation household_float := (household_float parse_numeric).
Abbreviation survives := (survives parse_datetime datetime_of_number).



Lemma mapM_raise_In {A B} (f : A -> result B) l x e :
  In x l -> f x = Raise e -> exists e', mapM f l = Raise e'.
Proof.
  intros Hin Hx. destruct (mapM f l) as [ys|e'] eqn:E; [|by exists e'].
  destruct (mapM_OK_In f l ys x E Hin) as [y Hy]. congruence.
Qed.


Lemma to_datetime_scalar_cases (c : cell) :
  (exists t, to_datetime_scalar parse_datetime datetime_of_number c = Date t) \/
  to_datetime_scalar parse_datetime datetime_of_number c = NaT.
Proof.
  destruct c as [s|x|t|]; simpl; eauto.
  - destruct (parse_datetime s); simpl; eauto.
  - destruct x; simpl; eauto; destruct (datetime_of_number _); simpl; eauto.
Qed.

Lemma clean_row_get_age (r : gmap string cell) :
  row_get (clean_row r) "age"
  = age_cell current_year
      (to_datetime_scalar parse_datetime datetime_of_number (row_get r "birthdate")).
Proof. rewrite clean_row_normal. by row_simpl. Qed.

Lemma complete_birthdate_age (r : gmap string cell) :
  complete_on ["birthdate"; "age"] (clean_row r)
  = is_date (to_datetime_scalar parse_datetime datetime_of_number (row_get r "birthdate")).
Proof.
  unfold complete_on. cbn [forallb].
  rewrite clean_row_get_age, clean_row_get_birthdate.
  destruct (to_datetime_scalar_cases (row_get r "birthdate")) as [[t ->]| ->]; reflexivity.
Qed.



Lemma clean_row_lookup_other (r : gmap string cell) (c : string) :
  ~ In c written_columns -> clean_row r !! c = r !! c.
Proof.
  intros H. rewrite clean_row_normal. unfold written_columns in H. simpl in H.
  repeat (rewrite lookup_insert_ne; [|intros <-; apply H; tauto]). reflexivity.
Qed.


End CleanerMore.





(** ** A household number that is infinite *)

(** C3: a bad number is to degrade to a default, never to raise.  The code
    coerces householdNum with [errors='coerce'] and fills the failures with
    0, and a household number that is text does become 0; but a household
    number that reads as infinite is no failure of the coercion, [fillna]
    leaves it, and [astype(int)] raises on it. *)
Theorem clean_data_infinite_household :
  clean 2024 Households.infinite_household = Raise IntCastingNaNError /\
  (clean 2024 Households.text_household ≫= getitem "householdNum") = OK [Num (of_Z 0)] /\
  clean 2024 Examples.foreign_table = Raise (KeyError essential_fields).
Proof. repeat split; vm_compute; reflexivity. Qed.

(** ** More on interpret_correlation *)

(** X8: on every float that is not NaN, [interpret_correlation] follows the
    thresholds: above 0.8 (and at plus infinity) strong positive, (0.5, 0.8]
    moderate positive, (0.2, 0.5] weak positive, (-0.2, 0.2] none,
    [-0.5, -0.2) weak negative, [-0.8, -0.5) moderate negative, below -0.8
    (and at minus infinity) strong negative; the value -0.2 itself is the
    one finite value outside these bands. *)
Theorem interpret_correlation_bands :
  interpret_correlation_class PInf = StrongPositive /\
  interpret_correlation_class NInf = StrongNegative /\
  forall q : Q,
    ((lit_0_8 < q)%Q -> interpret_correlation_class (Fin q) = StrongPositive) /\
    ((lit_0_5 < q <= lit_0_8)%Q -> interpret_correlation_class (Fin q) = ModeratePositive) /\
    ((lit_0_2 < q <= lit_0_5)%Q -> interpret_correlation_class (Fin q) = WeakPositive) /\
    ((- lit_0_2 < q <= lit_0_2)%Q -> interpret_correlation_class (Fin q) = NoCorrelation) /\
    ((- lit_0_5 <= q < - lit_0_2)%Q -> interpret_correlation_class (Fin q) = WeakNegative) /\
    ((- lit_0_8 <= q < - lit_0_5)%Q -> interpret_correlation_class (Fin q) = ModerateNegative) /\
    ((q < - lit_0_8)%Q -> interpret_correlation_class (Fin q) = StrongNegative).
Proof.
  split; [reflexivity|]. split; [reflexivity|].
  intros q. pose proof (interpret_correlation_finite q) as H. tauto.
Qed.

(** ** More on the binning *)

Lemma searchsorted_right_below (lo : Z) (q : Q) (m : nat) :
  (q < inject_Z lo)%Q ->
  searchsorted_right (map (fun i => lo + 10 * Z.of_nat i) (seq 0 m)) (Fin q) = 0%nat.
Proof.
  intros H. unfold searchsorted_right. rewrite filter_all_false; [reflexivity|].
  intros e He. apply in_map_iff in He as (i & <- & Hi).
  apply leb_Fin_false. eapply Qlt_le_trans; [apply H|]. rewrite <- Zle_Qle. lia.
Qed.

Lemma searchsorted_right_above (lo : Z) (q : Q) (m : nat) :
  (inject_Z (lo + 10 * (Z.of_nat m - 1)) <= q)%Q ->
  searchsorted_right (map (fun i => lo + 10 * Z.of_nat i) (seq 0 m)) (Fin q) = m.
Proof.
  intros H. unfold searchsorted_right. rewrite filter_all_true.
  - by rewrite length_map, length_seq.
  - intros e He. apply in_map_iff in He as (i & <- & Hi). apply in_seq in Hi.
    apply leb_Fin. eapply Qle_trans; [|apply H]. rewrite <- Zle_Qle. lia.
Qed.

Lemma bucket_index (lo : Z) (n : nat) (q : Q) :
  (inject_Z lo <= q)%Q -> (q < inject_Z (lo + 10 * Z.of_nat n))%Q ->
  exists k : nat, (k < n)%nat /\
    (inject_Z (lo + 10 * Z.of_nat k) <= q)%Q /\ (q < inject_Z (lo + 10 * Z.of_nat k + 10))%Q.
Proof.
  intros Hlo Hhi.
  pose proof (Qfloor_le q) as Hf1. pose proof (Qlt_floor q) as Hf2.
  assert (H1 : lo <= Qfloor q).
  { apply Z.lt_succ_r. rewrite Zlt_Qlt. eapply Qle_lt_trans; [apply Hlo|].
    unfold Z.succ. exact Hf2. }
  assert (H2 : Qfloor q < lo + 10 * Z.of_nat n).
  { rewrite Zlt_Qlt. eapply Qle_lt_trans; [apply Hf1 | apply Hhi]. }
  exists (Z.to_nat ((Qfloor q - lo) / 10)).
  assert (H3 : 0 <= (Qfloor q - lo) / 10) by (apply Z.div_pos; lia).
  pose proof (Z.div_mod (Qfloor q - lo) 10 ltac:(lia)) as Hdm.
  pose proof (Z.mod_pos_bound (Qfloor q - lo) 10 ltac:(lia)) as Hmb.
  rewrite Z2Nat.id by done. split; [|split].
  - apply Nat2Z.inj_lt. rewrite Z2Nat.id by done. lia.
  - eapply Qle_trans; [|apply Hf1]. rewrite <- Zle_Qle. lia.
  - eapply Qlt_le_trans; [apply Hf2|]. rewrite <- Zle_Qle. lia.
Qed.

(** X9: the binning gives a finite age no age group exactly when the age
    is below [int(min)] or at or beyond [int(min) + 10 n], where [n], the
    number of buckets, is the number of tens needed to go from [int(min)] up
    to [int(max)], rounded up. *)
Theorem age_groups_unbinned (data : DataFrame) labels groups genders :
  age_groups data = OK (Some (labels, groups, genders)) ->
  exists ages lo hi,
    (getitem "age" data ≫= mapM as_float) = OK ages /\
    int (series_min ages) = OK lo /\
    int (series_max ages) = OK hi /\
    length labels = Z.to_nat ((hi - lo + 9) / 10) /\
    forall (i : nat) (q : Q),
      nth_error ages i = Some (Fin q) ->
      (nth_error groups i = Some None <->
       (q < inject_Z lo)%Q \/ (inject_Z (lo + 10 * Z.of_nat (length labels)) <= q)%Q).
Proof.
  intros H. apply age_groups_inv in H
    as (age_col & ages & lo & hi & Hage & _ & Hfl & Hlo & Hhi & Hlab & Hcut).
  exists ages, lo, hi. rewrite Hage, bind_OK. repeat split; try done.
  { rewrite Hlab, length_map, py_range_length. f_equal. f_equal. lia. }
  all: apply cut_inv in Hcut as [Hlen ->]; rewrite nth_error_map, H; simpl.
  - intros Hnone. injection Hnone as Hnone.
    destruct (Qlt_le_dec q (inject_Z lo)) as [Hb|Hb]; [by left|].
    destruct (Qlt_le_dec q (inject_Z (lo + 10 * Z.of_nat (length labels)))) as [Ha|Ha];
      [|by right].
    exfalso. destruct (bucket_index lo (length labels) q Hb Ha) as (k & Hk & Hk1 & Hk2).
    rewrite (cut_scalar_bucket lo hi labels q k) in Hnone by done. discriminate.
  - assert (Hbins : length (py_range lo (hi + 10) 10) = S (length labels)) by lia.
    intros [Hb|Ha]; f_equal; unfold cut_scalar.
    + assert (Hs : searchsorted_right (py_range lo (hi + 10) 10) (Fin q) = 0%nat)
        by (unfold py_range; by apply searchsorted_right_below).
      rewrite Hs. cbn [isnan orb]. by rewrite Nat.eqb_refl, orb_true_r.
    + assert (Hs : searchsorted_right (py_range lo (hi + 10) 10) (Fin q)
                   = length (py_range lo (hi + 10) 10)).
      { rewrite py_range_length at 1. unfold py_range.
        apply searchsorted_right_above. rewrite <- py_range_length, Hbins.
        eapply Qle_trans; [|apply Ha]. rewrite <- Zle_Qle. lia. }
      rewrite Hs. cbn [isnan orb]. by rewrite Nat.eqb_refl.
Qed.

Lemma py_range_empty (a : Z) : py_range a a 10 = [].
Proof. unfold py_range. replace ((a - a + 10 - 1) / 10) with 0; [reflexivity|]. by replace (a - a + 10 - 1) with 9 by lia. Qed.

Lemma py_range_single (a : Z) : py_range a (a + 10) 10 = [a].
Proof.
  unfold py_range. replace ((a + 10 - a + 10 - 1) / 10) with 1.
  - simpl. f_equal. lia.
  - by replace (a + 10 - a + 10 - 1) with 19 by lia.
Qed.

Lemma age_groups_single_age (data : DataFrame) ages genders (a : Z) :
  (getitem "age" data ≫= mapM as_float) = OK ages ->
  getitem "gender" data = OK genders ->
  int (series_min ages) = OK a ->
  int (series_max ages) = OK a ->
  age_groups data = OK None \/
  exists groups, age_groups data = OK (Some ([], groups, genders)).
Proof.
  intros Hages Hg Hmin Hmax. unfold age_groups.
  destruct (empty data); [by left|].
  destruct (getitem "age" data) as [age_col|e]; [|discriminate].
  rewrite bind_OK in Hages. rewrite bind_OK.
  destruct (all_na age_col); [by left|].
  rewrite Hg, bind_OK. destruct (all_na genders); [by left|].
  rewrite Hages, bind_OK, Hmin, bind_OK, Hmax, bind_OK.
  rewrite py_range_empty, py_range_single. cbn [map].
  right. eexists. unfold cut. cbn [length]. reflexivity.
Qed.

(** X10: when the smallest and the largest age have the same integer part,
    for instance in a selection of one resident, no bucket is generated and
    [display_population_pyramid] stops with its warning instead of a
    pyramid. *)
Theorem pyramid_single_age (observed : bool) (data : DataFrame) ages genders (a : Z) :
  (getitem "age" data ≫= mapM as_float) = OK ages ->
  getitem "gender" data = OK genders ->
  int (series_min ages) = OK a ->
  int (series_max ages) = OK a ->
  pyramid_pivot observed data = OK None.
Proof.
  intros Hages Hg Hmin Hmax. unfold pyramid_pivot.
  destruct (age_groups_single_age data ages genders a Hages Hg Hmin Hmax)
    as [-> | [groups ->]]; [reflexivity|].
  rewrite bind_OK. cbv zeta. unfold groupby_size. cbn [product flat_map map List.filter].
  by destruct observed.
Qed.

(** ** More on the correlation and the regression *)

Lemma row_get_pair_age (r : gmap string cell) :
  row_get (mkrow (map (fun c => (c, row_get r c)) ["age"; "avgMonthlyIncome"])) "age"
  = row_get r "age".
Proof. unfold mkrow. cbn [map list_to_map foldr uncurry fst snd]. by row_simpl. Qed.

Lemma row_get_pair_income (r : gmap string cell) :
  row_get (mkrow (map (fun c => (c, row_get r c)) ["age"; "avgMonthlyIncome"]))
    "avgMonthlyIncome"
  = row_get r "avgMonthlyIncome".
Proof. unfold mkrow. cbn [map list_to_map foldr uncurry fst snd]. by row_simpl. Qed.

Lemma complete_on_pair (r : gmap string cell) :
  complete_on ["age"; "avgMonthlyIncome"]
    (mkrow (map (fun c => (c, row_get r c)) ["age"; "avgMonthlyIncome"]))
  = complete_on ["age"; "avgMonthlyIncome"] r.
Proof.
  unfold complete_on. cbn [forallb]. by rewrite row_get_pair_age, row_get_pair_income.
Qed.

(** The two columns of the rows where both values are present. *)
Lemma paired_columns (data : DataFrame) :
  has_column "age" data = true -> has_column "avgMonthlyIncome" data = true ->
  (pair ← select ["age"; "avgMonthlyIncome"] data;
   dropna ["age"; "avgMonthlyIncome"] pair)
  = OK {| columns := ["age"; "avgMonthlyIncome"];
          rows := map (fun r => mkrow (map (fun c => (c, row_get r c))
                                         ["age"; "avgMonthlyIncome"]))
                    (List.filter (complete_on ["age"; "avgMonthlyIncome"]) (rows data)) |}.
Proof.
  intros Ha Hi. unfold select.
  rewrite missing_columns_nil by (intros c [<-|[<-|[]]]; done).
  rewrite bind_OK, dropna_ok.
  - cbn [columns rows]. f_equal. f_equal. rewrite filter_map_comm.
    by rewrite (filter_ext _ _ complete_on_pair).
  - intros c Hc. apply has_column_In. exact Hc.
Qed.

Lemma paired_series (data : DataFrame) (A : Type) (f : list cell -> list cell -> result A) :
  has_column "age" data = true -> has_column "avgMonthlyIncome" data = true ->
  (pair ← select ["age"; "avgMonthlyIncome"] data;
   paired ← dropna ["age"; "avgMonthlyIncome"] pair;
   age ← getitem "age" paired;
   income ← getitem "avgMonthlyIncome" paired;
   f age income)
  = f (map (fun r => row_get r "age")
         (List.filter (complete_on ["age"; "avgMonthlyIncome"]) (rows data)))
      (map (fun r => row_get r "avgMonthlyIncome")
         (List.filter (complete_on ["age"; "avgMonthlyIncome"]) (rows data))).
Proof.
  intros Ha Hi. pose proof (paired_columns data Ha Hi) as Hp.
  destruct (select ["age"; "avgMonthlyIncome"] data) as [pair|e]; [|discriminate].
  rewrite bind_OK in Hp. rewrite bind_OK, Hp, bind_OK.
  rewrite !getitem_rows by (simpl; tauto). rewrite !bind_OK, !map_map.
  rewrite (map_ext _ _ row_get_pair_age), (map_ext _ _ row_get_pair_income).
  reflexivity.
Qed.

Lemma series_dropna_map (f : gmap string cell -> cell) (rs : list (gmap string cell)) :
  series_dropna (map f rs) = map f (List.filter (fun r => notna (f r)) rs).
Proof. unfold series_dropna. apply filter_map_comm. Qed.

(** X11: on a table where no row has one of age and avgMonthlyIncome
    missing and the other present, the regression of [display_demographics]
    is the regression over the rows where both are present. *)
Theorem demographics_regression_paired (data : DataFrame) :
  has_column "age" data = true -> has_column "avgMonthlyIncome" data = true ->
  (forall r, In r (rows data) ->
     isna (row_get r "age") = isna (row_get r "avgMonthlyIncome")) ->
  demographics_regression data = spec_linearRegression data.
Proof.
  intros Ha Hi Hsame. unfold spec_linearRegression.
  rewrite (paired_series data _
             (fun age income => x ← mapM as_float age; y ← mapM as_float income; linregress x y))
    by done.
  unfold demographics_regression. rewrite !getitem_ok by done. rewrite !bind_OK.
  rewrite !series_dropna_map.
  assert (H1 : List.filter (fun r => notna (row_get r "age")) (rows data)
               = List.filter (complete_on ["age"; "avgMonthlyIncome"]) (rows data)).
  { apply filter_ext_in. intros r Hr. unfold complete_on, notna. cbn [forallb].
    rewrite <- (Hsame r Hr). by destruct (isna (row_get r "age")). }
  assert (H2 : List.filter (fun r => notna (row_get r "avgMonthlyIncome")) (rows data)
               = List.filter (complete_on ["age"; "avgMonthlyIncome"]) (rows data)).
  { apply filter_ext_in. intros r Hr. unfold complete_on, notna. cbn [forallb].
    rewrite <- (Hsame r Hr). by destruct (isna (row_get r "age")). }
  by rewrite H1, H2.
Qed.

Lemma mapM_as_float_num (l : list cell) :
  forallb is_num l = true ->
  exists xs, mapM as_float l = OK xs /\ length xs = length l.
Proof.
  induction l as [|c l IH]; simpl; intros H; [by exists []|].
  apply andb_true_iff in H as [Hc Hl]. destruct c; try discriminate.
  destruct (IH Hl) as (xs & -> & Hlen). simpl. eexists. split; [reflexivity|]. simpl. lia.
Qed.

Lemma pearsonr_enough (x y : list float) :
  length x = length y -> (2 <= length x)%nat -> exists r, pearsonr x y = OK r.
Proof.
  intros Hlen Hn. unfold pearsonr.
  rewrite (proj2 (Nat.eqb_eq _ _) Hlen). cbn [negb].
  destruct (Nat.ltb_spec (length x) 2) as [?|_]; [lia|].
  destruct (finite_values x), (finite_values y); eauto.
  destruct (constant _ || constant _); eauto.
Qed.

(** X12: on a table whose age and avgMonthlyIncome columns are numeric,
    the correlation of [display_demographics] raises the [ValueError] of
    [pearsonr] when fewer than two rows have both values, and returns a
    coefficient otherwise. *)
Theorem demographics_correlation_outcome (data : DataFrame) :
  has_column "age" data = true -> has_column "avgMonthlyIncome" data = true ->
  (forall r, In r (rows data) ->
     is_num (row_get r "age") = true /\ is_num (row_get r "avgMonthlyIncome") = true) ->
  let paired := List.filter (complete_on ["age"; "avgMonthlyIncome"]) (rows data) in
  ((length paired < 2)%nat ->
   demographics_correlation data
   = Raise (ValueError "x and y must have length at least 2.")) /\
  ((2 <= length paired)%nat -> exists r, demographics_correlation data = OK r).
Proof.
  intros Ha Hi Hnum paired. unfold demographics_correlation.
  rewrite (paired_series data _
             (fun age income => x ← mapM as_float age; y ← mapM as_float income; pearsonr x y))
    by done.
  fold paired.
  destruct (mapM_as_float_num (map (fun r => row_get r "age") paired)) as (xs & -> & Hx).
  { apply forallb_forall. intros c Hc. apply in_map_iff in Hc as (r & <- & Hr).
    apply filter_In in Hr as [Hr _]. by apply Hnum. }
  destruct (mapM_as_float_num (map (fun r => row_get r "avgMonthlyIncome") paired))
    as (ys & -> & Hy).
  { apply forallb_forall. intros c Hc. apply in_map_iff in Hc as (r & <- & Hr).
    apply filter_In in Hr as [Hr _]. by apply Hnum. }
  rewrite !bind_OK. rewrite length_map in Hx, Hy. split; intros Hn.
  - apply pearsonr_short; lia.
  - apply pearsonr_enough; lia.
Qed.

Lemma unique_triples_incl (l : list (cell * cell * cell)) t :
  In t (unique_triples l) -> In t l.
Proof.
  induction l as [|a l IH]; simpl; [done|].
  intros [H|H]; [by left|]. apply filter_In in H as [H _]. right. by apply IH.
Qed.

Lemma unique_length (l : list cell) : (length (unique l) <= length l)%nat.
Proof.
  induction l as [|a l IH]; simpl; [lia|].
  pose proof (filter_length_le (fun y => negb (cell_eqb a y)) (unique l)). lia.
Qed.

Lemma in_combine3 (x y c : list cell) t :
  In t (combine (combine x y) c) -> In (fst (fst t)) x /\ In (snd (fst t)) y.
Proof.
  destruct t as [[a b] d]. intros H. apply in_combine_l in H.
  split; [by apply in_combine_l in H | by apply in_combine_r in H].
Qed.

(** X13: on numeric columns the correlation of [display_bubble_chart]
    never raises: its test on the number of distinct values lets [pearsonr]
    run only on arrays of equal length with at least two entries. *)
Theorem bubble_correlation_never_raises (selected_x selected_y selected_category : string)
    (data : DataFrame) :
  has_column selected_x data = true ->
  has_column selected_y data = true ->
  has_column selected_category data = true ->
  (forall r, In r (rows data) ->
     is_num (row_get r selected_x) = true /\ is_num (row_get r selected_y) = true) ->
  exists res, bubble_correlation selected_x selected_y selected_category data = OK res.
Proof.
  intros Hx Hy Hc Hnum. unfold bubble_correlation, bubble_groups.
  rewrite !getitem_ok by done. rewrite !bind_OK.
  set (groups := unique_triples _).
  assert (Hg : forall t, In t groups ->
            is_num (fst (fst t)) = true /\ is_num (snd (fst t)) = true).
  { intros t Ht. apply unique_triples_incl in Ht. apply filter_In in Ht as [Ht _].
    apply in_combine3 in Ht as [H1 H2].
    apply in_map_iff in H1 as (r1 & <- & Hr1). apply in_map_iff in H2 as (r2 & <- & Hr2).
    split; [by apply Hnum | by apply Hnum]. }
  destruct ((1 <? length (unique (map (fun t => fst (fst t)) groups)))%nat
            && (1 <? length (unique (map (fun t => snd (fst t)) groups)))%nat) eqn:Eguard;
    [|by eexists].
  apply andb_true_iff in Eguard as [E1 _]. apply Nat.ltb_lt in E1.
  pose proof (unique_length (map (fun t => fst (fst t)) groups)) as Hlen.
  rewrite length_map in Hlen.
  destruct (mapM_as_float_num (map (fun t => fst (fst t)) groups)) as (xs & -> & Hxs).
  { apply forallb_forall. intros c Hin. apply in_map_iff in Hin as (t & <- & Ht).
    by apply Hg. }
  destruct (mapM_as_float_num (map (fun t => snd (fst t)) groups)) as (ys & -> & Hys).
  { apply forallb_forall. intros c Hin. apply in_map_iff in Hin as (t & <- & Ht).
    by apply Hg. }
  rewrite !bind_OK. rewrite length_map in Hxs, Hys.
  destruct (pearsonr_enough xs ys) as [r ->]; [lia | lia |]. by eexists.
Qed.

(** *** Examples for the binning, the correlation and the regression *)

Lemma age_groups_unbinned_witness :
  age_groups Examples.ages_5_15_25
  = OK (Some (["5-14"; "15-24"], [Some "5-14"; Some "15-24"; None],
              [Str "Male"; Str "Female"; Str "Male"])) /\
  exists ages lo hi,
    (getitem "age" Examples.ages_5_15_25 ≫= mapM as_float) = OK ages /\
    int (series_min ages) = OK lo /\
    int (series_max ages) = OK hi /\
    length ["5-14"; "15-24"] = Z.to_nat ((hi - lo + 9) / 10) /\
    forall (i : nat) (q : Q),
      nth_error ages i = Some (Fin q) ->
      (nth_error [Some "5-14"; Some "15-24"; None] i = Some None <->
       (q < inject_Z lo)%Q \/ (inject_Z (lo + 10 * Z.of_nat (length ["5-14"; "15-24"])) <= q)%Q).
Proof.
  split; [vm_compute; reflexivity|].
  apply (age_groups_unbinned Examples.ages_5_15_25 ["5-14"; "15-24"]
           [Some "5-14"; Some "15-24"; None] [Str "Male"; Str "Female"; Str "Male"]).
  vm_compute. reflexivity.
Defined.

Lemma pyramid_single_age_witness :
  (getitem "age" Examples.one_person ≫= mapM as_float) = OK [of_Z 20] /\
  pyramid_pivot true Examples.one_person = OK None.
Proof.
  split; [vm_compute; reflexivity|].
  apply (pyramid_single_age true Examples.one_person [of_Z 20] [Str "Male"] 20);
    vm_compute; reflexivity.
Defined.

Lemma people_rows_num (l : list (float * string * float)) (r : gmap string cell) :
  In r (rows (Examples.people l)) ->
  is_num (row_get r "age") = true /\ is_num (row_get r "avgMonthlyIncome") = true.
Proof.
  unfold Examples.people. cbn [rows]. intros H.
  apply in_map_iff in H as ([[a g] i] & <- & _). unfold Examples.person, mkrow.
  cbn [list_to_map foldr uncurry fst snd]. by row_simpl.
Qed.

Lemma demographics_regression_paired_witness :
  demographics_regression Examples.ages_5_15_25
  = spec_linearRegression Examples.ages_5_15_25.
Proof.
  apply demographics_regression_paired; [reflexivity | reflexivity |].
  intros r Hr. simpl in Hr. destruct Hr as [<-|[<-|[<-|[]]]]; vm_compute; reflexivity.
Defined.

Lemma demographics_correlation_outcome_witness :
  demographics_correlation Examples.one_person
  = Raise (ValueError "x and y must have length at least 2.") /\
  exists r, demographics_correlation Examples.ages_5_15_25 = OK r.
Proof.
  split.
  - apply (proj1 (demographics_correlation_outcome Examples.one_person
                    eq_refl eq_refl (people_rows_num _))).
    vm_compute. lia.
  - apply (proj2 (demographics_correlation_outcome Examples.ages_5_15_25
                    eq_refl eq_refl (people_rows_num _))).
    vm_compute. lia.
Defined.

Lemma bubble_correlation_never_raises_witness :
  exists res,
    bubble_correlation "age" "avgMonthlyIncome" "gender" Examples.ages_5_15_25 = OK res.
Proof.
  apply (bubble_correlation_never_raises "age" "avgMonthlyIncome" "gender"
           Examples.ages_5_15_25 eq_refl eq_refl eq_refl (people_rows_num _)).
Defined.
